(** * Free-games autograbber: the browser-automation script, embedded in Rocq

    The program ([main.py]) is a sequence of Selenium calls against a
    storefront page: bounded waits, element lookups, clicks, log calls and a
    sleep loop.  The embedding keeps that shape.  A computation is a function
    of the state of the outside world (browser, site, files, clock) that
    returns an outcome (a value or a raised exception), the new state of the
    world and the events it emitted, in order.  What the outside world
    answers is not fixed here: it is the interface [Host], and every
    statement holds for every host unless it says otherwise. *)

From Stdlib Require Import ZArith String Ascii List Bool Lia.
From stdpp Require Import base option list strings gmap.
Import ListNotations.

Local Open Scope Z_scope.
Local Open Scope string_scope.
Local Open Scope list_scope.

(** ** Python values the script manipulates *)

(** Exceptions, named by their Python class.  [SystemExit] carries the exit
    status passed to [exit]. *)
Inductive exn : Type :=
| TimeoutException
| NoSuchElementException
| WebDriverException
| LookupError
| IndexError
| KeyError
| TypeError
| AttributeError
| ValueError
| FileNotFoundError
| JSONDecodeError
| BinasciiError
| SystemExit (code : Z).

(** [isinstance e c]: an [except c] clause catches [e].  The class tree is
    Python's and Selenium's: [TimeoutException] and [NoSuchElementException]
    derive from [WebDriverException], [IndexError] and [KeyError] from
    [LookupError], [JSONDecodeError] and [binascii.Error] from [ValueError];
    [SystemExit] derives from none of the classes the script names. *)
Definition isinstance (e c : exn) : bool :=
  match c, e with
  | TimeoutException, TimeoutException => true
  | NoSuchElementException, NoSuchElementException => true
  | WebDriverException,
    (WebDriverException | TimeoutException | NoSuchElementException) => true
  | LookupError, (LookupError | IndexError | KeyError) => true
  | IndexError, IndexError => true
  | KeyError, KeyError => true
  | TypeError, TypeError => true
  | AttributeError, AttributeError => true
  | ValueError, (ValueError | JSONDecodeError | BinasciiError) => true
  | FileNotFoundError, FileNotFoundError => true
  | JSONDecodeError, JSONDecodeError => true
  | BinasciiError, BinasciiError => true
  | SystemExit _, SystemExit _ => true
  | _, _ => false
  end.

(** The double-quote character, for the literals of the script that hold
    one. *)
Definition dq : string := String (ascii_of_nat 34) EmptyString.

(** A [WebElement] handle. *)
Definition element : Type := nat.

Inductive By : Type := ID | XPATH.

Definition locator : Type := By * string.

Definition locator_eqb (a b : locator) : bool :=
  match fst a, fst b with
  | ID, ID | XPATH, XPATH => String.eqb (snd a) (snd b)
  | _, _ => false
  end.

(** The [expected_conditions] the script waits for. *)
Inductive condition : Type :=
| visibility_of_element_located
| element_to_be_clickable
| presence_of_element_located
| visibility_of_all_elements_located.

Inductive level : Type := DEBUG | INFO | WARNING | ERROR | CRITICAL.

(** An argument of a [%]-format log call.  [ATraceback e] is the text
    [traceback.format_exc()] gives in the handler that caught [e]. *)
Inductive arg : Type :=
| AStr (s : string)
| AInt (z : Z)
| ATraceback (e : exn).

(** What the script does to the outside world, one constructor per kind of
    call.  [Log] is a call of [logger.debug], [logger.info], ... with its
    format string and arguments, whatever level the logger then filters
    at. *)
Inductive event : Type :=
| Chrome (driver_path : string) (arguments : list string)
| Get (url : string)
| Refresh
| Close
| ExecuteScript (script : string)
| Until (timeout : Z) (c : condition) (l : locator)
| FindElement (l : locator)
| Click (e : element)
| SendKeys (e : element) (keys : string)
| AddCookie (name value domain : string)
| OpenFile (path : string)
| BasicConfig (lvl : level)
| SetLevel (attribute default : string)
| Log (lvl : level) (fmt : string) (args : list arg)
| Stdout (s : string)
| Sleep (secs : Z).

(** What [open('cookies.json')] followed by [json.load] yields: no file, a
    file that is not JSON, the list of its objects, each a list of
    key/value pairs, or JSON of another shape.  [Broken l] is JSON in which
    the objects [l] are followed by a value that is no object, so that its
    subscript raises a [TypeError]; [l] is empty when the JSON is no list
    at all. *)
Inductive cookies_json : Type :=
| NoFile
| Malformed
| Entries (l : list (list (string * string)))
| Broken (l : list (list (string * string))).

(** The objects the editions loop subscripts: the list a wait returns, or
    the [WebDriverWait] object itself. *)
Inductive pyobj : Type :=
| WebElements (l : list element)
| WebDriverWait (timeout : Z).

(** ** The outside world *)

(** What Selenium, the file system, the clock and Python's library answer.
    A bounded wait either yields what its condition located or times out
    ([None]; for the all-elements condition the empty list, which [until]
    never returns since it is falsy); a lookup finds an element or not;
    [text] reads a property and changes nothing; a driver command ([get],
    [click], [send_keys], [close], ...) or a sleep changes the world and
    completes; [add_cookie] can be refused by the driver.  [totp_now] is
    [TOTP.now()], which fails ([None], a [binascii.Error]) on a secret that
    is not base32; [set_level name] is the exception, if any, that
    [logger.setLevel(getattr(logging, name, "INFO"))] raises; [str_upper]
    and [str_len] are [str.upper] and [len]; [sleep_max] is the largest
    number of seconds [time.sleep] takes, the run loop being modelled for
    the values up to it. *)
Class Host (W : Type) : Type := {
  poll : Z -> condition -> locator -> W -> option element * W;
  poll_all : Z -> locator -> W -> list element * W;
  find_element : locator -> W -> option element * W;
  text : element -> W -> string;
  command : event -> W -> W;
  add_cookie : string -> string -> string -> W -> bool * W;
  cookies_file : W -> cookies_json;
  totp_now : string -> W -> option string;
  int_of_str : string -> option Z;
  set_level : string -> option exn;
  str_upper : string -> string;
  str_len : string -> nat;
  sleep_max : Z
}.

(** ** Computations *)

Inductive outcome (A : Type) : Type :=
| Done (a : A)
| Raised (e : exn).
Arguments Done {A} a.
Arguments Raised {A} e.

Definition trace : Type := list event.

Definition M (W A : Type) : Type := W -> outcome A * W * trace.

Definition ret {W A} (a : A) : M W A := fun w => (Done a, w, []).

Definition raise {W A} (e : exn) : M W A := fun w => (Raised e, w, []).

(** The result of a computation that ran after the events [t]. *)
Definition prepend {W A} (t : trace) (r : outcome A * W * trace)
    : outcome A * W * trace :=
  match r with
  | (o, w, t') => (o, w, t ++ t')
  end.

Definition bind {W A B} (m : M W A) (k : A -> M W B) : M W B :=
  fun w =>
    match m w with
    | (Done a, w1, t1) => prepend t1 (k a w1)
    | (Raised e, w1, t1) => (Raised e, w1, t1)
    end.

(** [try: m  except classes: handler] *)
Definition try_except {W A} (m : M W A) (classes : list exn)
    (handler : exn -> M W A) : M W A :=
  fun w =>
    match m w with
    | (Done a, w1, t1) => (Done a, w1, t1)
    | (Raised e, w1, t1) =>
        if existsb (isinstance e) classes then prepend t1 (handler e w1)
        else (Raised e, w1, t1)
    end.

(** [try: m  except c1: h1  except c2: h2] *)
Definition try_except2 {W A} (m : M W A) (c1 : list exn) (h1 : exn -> M W A)
    (c2 : list exn) (h2 : exn -> M W A) : M W A :=
  fun w =>
    match m w with
    | (Done a, w1, t1) => (Done a, w1, t1)
    | (Raised e, w1, t1) =>
        if existsb (isinstance e) c1 then prepend t1 (h1 e w1)
        else if existsb (isinstance e) c2 then prepend t1 (h2 e w1)
        else (Raised e, w1, t1)
    end.

Declare Scope py_scope.
Delimit Scope py_scope with py.
Notation "x <- m ;; k" := (bind m (fun x => k))
  (at level 100, m at next level, right associativity) : py_scope.
Notation "m ;; k" := (bind m (fun _ => k))
  (at level 100, right associativity) : py_scope.
Local Open Scope py_scope.

(** [for x in l: body x] *)
Fixpoint for_each {W A} (l : list A) (body : A -> M W unit) : M W unit :=
  match l with
  | [] => ret tt
  | x :: rest => body x ;; for_each rest body
  end.

(** [for i in range(n): body i] *)
Definition for_range {W} (n : nat) (body : nat -> M W unit) : M W unit :=
  for_each (seq 0 n) body.

(** [[f x for x in l]] *)
Fixpoint comprehension {W A B} (f : A -> M W B) (l : list A) : M W (list B) :=
  match l with
  | [] => ret []
  | x :: rest => y <- f x ;; ys <- comprehension f rest ;; ret (y :: ys)
  end.

(** ** Configuration *)

(** The globals [read_env_variables] sets.  [TOTP] holds the secret the
    [pyotp.TOTP] generator was built from. *)
Record config : Type := {
  DEBUG_ : bool;
  TIMEOUT : Z;
  EMAIL : string;
  PASSWORD : string;
  LOGLEVEL : string;
  SLEEPTIME : Z;
  TOTP : option string
}.

(** [os.getenv(name) or default]: an unset or empty variable gives the
    default. *)
Definition getenv_or {A} (env : gmap string string) (name : string)
    (of_string : string -> A) (default : A) : A :=
  match env !! name with
  | Some s => if String.eqb s "" then default else of_string s
  | None => default
  end.

(** Upper case on the ASCII letters, which is what the scripted store
    below takes [str.upper] to be. *)
Definition upper_ascii (c : ascii) : ascii :=
  let n := nat_of_ascii c in
  if ((97 <=? n)%nat && (n <=? 122)%nat)%bool then ascii_of_nat (n - 32) else c.

Fixpoint upper (s : string) : string :=
  match s with
  | EmptyString => EmptyString
  | String c rest => String (upper_ascii c) (upper rest)
  end.

Definition FREE_GAMES_PAGE_URL : string :=
  "https://www.epicgames.com/store/en-US/free-games/".

(** ** The controls the script looks for *)

Definition LOG_OUT : locator := (XPATH, "//a[@id='log-out']/span").

Definition USER_MENU : locator := (XPATH, "//div[@id='user']").

Definition LOGIN_WITH_EPIC : locator := (XPATH, "//div[@id='login-with-epic']").

Definition EMAIL_FIELD : locator := (XPATH, "//input[@id='email']").

Definition PASSWORD_FIELD : locator := (XPATH, "//input[@id='password']").

Definition SIGN_IN_BUTTON : locator := (XPATH, "//button[@id='sign-in']").

Definition CAPTCHA_FRAME : locator :=
  (XPATH, "//iframe[@id=" +:+ dq +:+ "talon_frame_login_prod" +:+ dq +:+ "]").

Definition TWO_FACTOR_CODE : locator := (ID, "code").

Definition CONTINUE_BUTTON : locator := (ID, "continue").

Definition INVALID_CREDENTIALS : locator :=
  (XPATH, "//h6[contains(text(),'credentials') " +:+
          "and contains(text(),'invalid')]").

Definition AGREE : locator := (ID, "agree").

Definition ACCEPT_BUTTON : locator :=
  (XPATH, "//button[descendant::span[text()='Accept']]").

Definition PURCHASE_CTA_BUTTON : locator :=
  (XPATH, "//button[@data-testid='purchase-cta-button']").

Definition PRIMARY_BUTTON : locator :=
  (XPATH, "//button[contains(@class,'btn-primary')]").

Definition CHECKOUT_COMPLETE : locator :=
  (XPATH, "//h1/span[contains(text(),'Install')]|" +:+
          "//span[contains(text(),'Thank you for buying')]").

Definition FREE_NOW : locator :=
  (XPATH, "//a[descendant::span[text()='Free Now']]").

Definition FREE_NOW_DASH : locator :=
  (XPATH, "//a[descendant::span[text()='Free Now -']]").

Definition COOKIES_BANNER : locator :=
  (XPATH, "//div[@id='onetrust-close-btn-container']/button").

Definition MATURE_CONTENT : locator :=
  (XPATH, "//span[contains(text(),'mature content')]").

Definition MATURE_CONTINUE : locator :=
  (XPATH, "//button[contains(text(),'Continue')]").

Definition GAME_TITLE : locator :=
  (XPATH, "//h2[contains(@class,'NavigationVertical')]").

Definition GAME_PRICE : locator := (XPATH, "//s").

Definition SALE_ENDS : locator :=
  (XPATH, "//span[contains(text(),'Sale ends')]").

Definition EDITIONS_TITLES : locator :=
  (XPATH, "//div[contains(@class,'Editions-title') " +:+
          "or contains(@class, 'AddOns-title')]").

Definition EDITIONS_BUTTONS : locator :=
  (XPATH, "//div[contains(@class,'Editions') or contains(" +:+
          "@class, 'AddOns')]//div[contains(" +:+
          "@class,'PurchaseButton-ctaButtons')]//button").

Section Program.

Context {W : Type} {host : Host W}.

(** [int(os.getenv(name) or default)]: [None] is the [ValueError] of a
    string that is no integer. *)
Definition getenv_int (env : gmap string string) (name : string)
    (default : Z) : option Z :=
  getenv_or env name int_of_str (Some default).

Definition read_env_variables (env : gmap string string) : outcome config :=
  let debug := bool_decide (is_Some (env !! "DEBUG")) in
  match getenv_int env "TIMEOUT" 20 with
  | None => Raised ValueError
  | Some timeout =>
      let email := getenv_or env "EMAIL" id "" in
      let password := getenv_or env "PASSWORD" id "" in
      let loglevel := str_upper (getenv_or env "LOGLEVEL" id "") in
      match getenv_int env "SLEEPTIME" (-1) with
      | None => Raised ValueError
      | Some sleeptime =>
          let value := getenv_or env "TOTP" Some None in
          Done {| DEBUG_ := debug; TIMEOUT := timeout; EMAIL := email;
                  PASSWORD := password; LOGLEVEL := loglevel;
                  SLEEPTIME := sleeptime; TOTP := value |}
      end
  end.

(** ** Primitive calls *)

Local Abbreviation M := (M W).

(** A call that leaves the world as it is: a log call, a [print]. *)
Definition emit (ev : event) : M unit := fun w => (Done tt, w, [ev]).

(** A driver command or a sleep.  The model follows the runs in which the
    driver carries the command out; a command that the driver fails (a
    click that is intercepted, a page that does not load, a sleep too long
    for [time.sleep]) is outside it.  The statements say what the program
    does along the runs of the model; they say nothing of the exceptions
    such a command would add. *)
Definition perform (ev : event) : M unit :=
  fun w => (Done tt, command ev w, [ev]).

Definition log (lvl : level) (fmt : string) (args : list arg) : M unit :=
  emit (Log lvl fmt args).

(** [WebDriverWait(browser, TIMEOUT).until(c(l))] for a condition that
    yields one element. *)
Definition until (cfg : config) (c : condition) (l : locator) : M element :=
  fun w =>
    match poll (TIMEOUT cfg) c l w with
    | (Some e, w1) => (Done e, w1, [Until (TIMEOUT cfg) c l])
    | (None, w1) => (Raised TimeoutException, w1, [Until (TIMEOUT cfg) c l])
    end.

(** [WebDriverWait(browser, timeout).until(
       EC.visibility_of_all_elements_located(l))] *)
Definition until_all (timeout : Z) (l : locator) : M (list element) :=
  fun w =>
    match poll_all timeout l w with
    | ([], w1) =>
        (Raised TimeoutException, w1,
         [Until timeout visibility_of_all_elements_located l])
    | (es, w1) =>
        (Done es, w1, [Until timeout visibility_of_all_elements_located l])
    end.

(** [browser.find_element_by_xpath], [browser.find_element_by_id] *)
Definition find (l : locator) : M element :=
  fun w =>
    match find_element l w with
    | (Some e, w1) => (Done e, w1, [FindElement l])
    | (None, w1) => (Raised NoSuchElementException, w1, [FindElement l])
    end.

(** [e.text]: the text the element has in the world of the read; like a
    command, the read is one that the driver carries out. *)
Definition text_of (e : element) : M string := fun w => (Done (text e w), w, []).

Definition click (e : element) : M unit := perform (Click e).

Definition send_keys (e : element) (keys : string) : M unit :=
  perform (SendKeys e keys).

(** [TOTP.now()] for the generator built from [secret] *)
Definition now (secret : string) : M string :=
  fun w =>
    match totp_now secret w with
    | Some code => (Done code, w, [])
    | None => (Raised BinasciiError, w, [])
    end.

(** [o.until(EC.visibility_of_all_elements_located(l))] *)
Definition until_on (o : pyobj) (l : locator) : M (list element) :=
  match o with
  | WebDriverWait timeout => until_all timeout l
  | WebElements _ => raise AttributeError
  end.

(** [exit(code)] *)
Definition exit {A} (code : Z) : M A := raise (SystemExit code).

(** [o[i]] *)
Definition getitem (o : pyobj) (i : nat) : M element :=
  match o with
  | WebElements l =>
      match l !! i with
      | Some e => ret e
      | None => raise IndexError
      end
  | WebDriverWait _ => raise TypeError
  end.

(** [l[i]] on a list of strings *)
Definition getstr (l : list string) (i : nat) : M string :=
  match l !! i with
  | Some s => ret s
  | None => raise IndexError
  end.

(** [d[key]] on a JSON object *)
Definition getkey (d : list (string * string)) (key : string) : M string :=
  match List.find (fun kv => String.eqb (fst kv) key) d with
  | Some kv => ret (snd kv)
  | None => raise KeyError
  end.

(** ** [load_cookies] *)

Definition add_cookie_call (name value domain : string) : M unit :=
  fun w =>
    match add_cookie name value domain w with
    | (true, w1) => (Done tt, w1, [AddCookie name value domain])
    | (false, w1) =>
        (Raised WebDriverException, w1, [AddCookie name value domain])
    end.

(** [open('cookies.json', 'r')] then [json.load]: the values the loop
    goes through, [None] for one that is no object. *)
Definition json_load_cookies : M (list (option (list (string * string)))) :=
  fun w =>
    match cookies_file w with
    | NoFile => (Raised FileNotFoundError, w, [OpenFile "cookies.json"])
    | Malformed => (Raised JSONDecodeError, w, [OpenFile "cookies.json"])
    | Entries l => (Done (map Some l), w, [OpenFile "cookies.json"])
    | Broken l => (Done (map Some l ++ [None]), w, [OpenFile "cookies.json"])
    end.

(** [i[key]] on a value of the cookies file *)
Definition getfield (i : option (list (string * string))) (key : string)
    : M string :=
  match i with
  | Some d => getkey d key
  | None => raise TypeError
  end.

Definition load_cookies : M unit :=
  log DEBUG "trying to load cookies" [] ;;
  try_except2
    (cookies <- json_load_cookies ;;
     for_each cookies (fun i =>
       try_except
         (name <- getfield i "name" ;;
          value <- getfield i "value" ;;
          domain <- getfield i "domain" ;;
          add_cookie_call name value domain)
         [WebDriverException; KeyError]
         (fun _ => ret tt)) ;;
     log DEBUG "all cookies loaded, refreshing the page" [] ;;
     perform Refresh)
    [FileNotFoundError]
    (fun _ => log CRITICAL "cookies file not found" [])
    [JSONDecodeError]
    (fun _ => log CRITICAL "cookies file not correctly formatted" []).

(** ** [open_browser] *)

Definition open_browser (cfg : config) : M unit :=
  let chrome_options := ["--no-sandbox"; "--disable-dev-shm-usage"] in
  if DEBUG_ cfg then
    perform (Chrome "./chromedriver" (chrome_options ++ ["--window-size=800,600"]))
  else
    perform (Chrome "/usr/bin/chromedriver" (chrome_options ++ ["--headless"])).

(** ** [purchase_steps] *)

(** Lines 82-110: the license agreement, one [try] around three waits. *)
Definition license_agreement (cfg : config) : M unit :=
  try_except
    (log DEBUG "find and accept license agreement" [] ;;
     el <- until cfg visibility_of_element_located AGREE ;;
     click el ;;
     el <- until cfg visibility_of_element_located ACCEPT_BUTTON ;;
     click el ;;
     log DEBUG "find and clicking again the purchase button" [] ;;
     el <- until cfg visibility_of_element_located PURCHASE_CTA_BUTTON ;;
     click el)
    [TimeoutException]
    (fun _ => log DEBUG "no license agreement found" []).

(** Lines 112-119: the primary purchase button. *)
Definition primary_purchase (cfg : config) : M unit :=
  log DEBUG "find and click on the last purchase button" [] ;;
  el <- until cfg visibility_of_element_located PRIMARY_BUTTON ;;
  click el.

(** Lines 123-133: the refund notice. *)
Definition refund_notice (cfg : config) : M unit :=
  try_except
    (log DEBUG "accept the conditions of refund popup" [] ;;
     els <- until_all (TIMEOUT cfg) PRIMARY_BUTTON ;;
     el <- getitem (WebElements els) 1 ;;
     click el)
    [NoSuchElementException; TimeoutException; LookupError]
    (fun _ => log DEBUG "no refund conditions popup to accept" []).

(** Lines 135-144: the confirmation. *)
Definition confirmation (cfg : config) : M unit :=
  log DEBUG "Wait for confirmation that checkout is complete" [] ;;
  _ <- until cfg visibility_of_element_located CHECKOUT_COMPLETE ;;
  ret tt.

Definition purchase_steps (cfg : config) : M unit :=
  license_agreement cfg ;;
  primary_purchase cfg ;;
  refund_notice cfg ;;
  confirmation cfg.

(** ** [login] *)

(** Lines 148-188: the login form. *)
Definition login_form (cfg : config) : M unit :=
  try_except
    (log DEBUG "find and click on login button" [] ;;
     el <- until cfg element_to_be_clickable USER_MENU ;;
     click el ;;
     log DEBUG "find and click on EpicGame login method" [] ;;
     el <- until cfg element_to_be_clickable LOGIN_WITH_EPIC ;;
     click el ;;
     log DEBUG "wait for email field on login page" [] ;;
     el <- until cfg element_to_be_clickable EMAIL_FIELD ;;
     send_keys el (EMAIL cfg) ;;
     pw <- find PASSWORD_FIELD ;;
     send_keys pw (PASSWORD cfg) ;;
     el <- until cfg element_to_be_clickable SIGN_IN_BUTTON ;;
     click el)
    [TimeoutException]
    (fun _ => log CRITICAL "Unable to locate login form" []).

(** Lines 190-203: the captcha. *)
Definition captcha_check (cfg : config) : M unit :=
  try_except
    (log DEBUG "Checking for captcha" [] ;;
     _ <- until cfg presence_of_element_located CAPTCHA_FRAME ;;
     log CRITICAL "Captcha found. Can't procede any further." [] ;;
     perform Close ;;
     exit 0)
    [TimeoutException]
    (fun _ => log DEBUG "captcha not detected." []).

(** Lines 205-212: the one-time password. *)
Definition two_factor (cfg : config) : M unit :=
  match TOTP cfg with
  | Some secret =>
      log DEBUG "wait for 2fa field on login page" [] ;;
      el <- until cfg element_to_be_clickable TWO_FACTOR_CODE ;;
      code <- now secret ;;
      send_keys el code ;;
      log DEBUG "logging in with 2FA" [] ;;
      el <- find CONTINUE_BUTTON ;;
      click el
  | None => ret tt
  end.

(** Lines 214-232: the wrong-credentials message. *)
Definition credentials_check (cfg : config) : M unit :=
  try_except
    (log DEBUG "search for wrong credentials message" [] ;;
     _ <- until cfg visibility_of_element_located INVALID_CREDENTIALS ;;
     log CRITICAL "failed to login into account, credentials invalid" [] ;;
     perform Close ;;
     exit 0)
    [TimeoutException]
    (fun _ => log DEBUG "login succeeded" []).

Definition login (cfg : config) : M unit :=
  login_form cfg ;;
  captcha_check cfg ;;
  two_factor cfg ;;
  credentials_check cfg.

(** ** [execute] *)

Definition FMT_OWNED : string :=
  dq +:+ "%s" +:+ dq +:+ " already owned. Price was %s and %s".

Definition FMT_OBTAINING : string := "obtaining " +:+ dq +:+ "%s" +:+ dq.

Definition FMT_OBTAINED : string := "obtained %s. Price was %s and %s".

Definition FMT_EDITIONS : string :=
  "processing editions for " +:+ dq +:+ "%s" +:+ dq.

Definition FMT_EDITION_OWNED : string :=
  dq +:+ "%s - %s" +:+ dq +:+ " already owned".

Definition FMT_EDITION_OBTAINED : string :=
  "obtained " +:+ dq +:+ "%s - %s" +:+ dq.

Definition FMT_NOT_RECOGNIZED : string :=
  "purchase button text not recognized: %s".

(** Lines 360-386: one round of the editions loop. *)
Definition edition (cfg : config) (name : string)
    (addons_titles : list string) (t : nat) : M unit :=
  let editions_addons_buttons := WebDriverWait (TIMEOUT cfg) in
  _ <- until_on editions_addons_buttons EDITIONS_BUTTONS ;;
  button <- getitem editions_addons_buttons t ;;
  label <- text_of button ;;
  if String.eqb label "OWNED" then
    title <- getstr addons_titles t ;;
    log INFO FMT_EDITION_OWNED [AStr name; AStr title]
  else
    button <- getitem editions_addons_buttons t ;;
    label <- text_of button ;;
    if String.eqb label "GET" then
      button <- getitem editions_addons_buttons t ;;
      click button ;;
      purchase_steps cfg ;;
      title <- getstr addons_titles t ;;
      log INFO FMT_EDITION_OBTAINED [AStr name; AStr title] ;;
      perform (ExecuteScript "window.history.go(-1)")
    else ret tt.

(** Lines 347-386: the [SEE EDITIONS] branch. *)
Definition see_editions (cfg : config) (name : string) : M unit :=
  log DEBUG FMT_EDITIONS [AStr name] ;;
  editions_addons_titles <- until_all (TIMEOUT cfg) EDITIONS_TITLES ;;
  addons_titles <- comprehension text_of editions_addons_titles ;;
  for_range (length addons_titles) (edition cfg name addons_titles).

(** Lines 330-391: the branch on the label of the purchase button. *)
Definition act_on_label (cfg : config) (purchase_button : element)
    (name price expires : string) : M unit :=
  label <- text_of purchase_button ;;
  if String.eqb label "OWNED" then
    log INFO FMT_OWNED [AStr name; AStr price; AStr expires]
  else
    label <- text_of purchase_button ;;
    if String.eqb label "GET" then
      log INFO FMT_OBTAINING [AStr name] ;;
      click purchase_button ;;
      purchase_steps cfg ;;
      log INFO FMT_OBTAINED [AStr name; AStr price; AStr expires]
    else
      label <- text_of purchase_button ;;
      if String.eqb label "SEE EDITIONS" then see_editions cfg name
      else
        label <- text_of purchase_button ;;
        log WARNING FMT_NOT_RECOGNIZED [AStr label].

(** Lines 286-304: the mature-content block. *)
Definition mature_content (cfg : config) : M unit :=
  log DEBUG "bypass mature content block" [] ;;
  try_except
    (_ <- until cfg visibility_of_element_located MATURE_CONTENT ;;
     el <- until cfg visibility_of_element_located MATURE_CONTINUE ;;
     click el)
    [TimeoutException]
    (fun _ => log DEBUG "no mature content block to bypass" []).

(** Lines 306-328: the purchase button and the title, price and end of
    sale of the offer. *)
Definition read_offer (cfg : config) : M (element * string * string * string) :=
  log DEBUG "find the purchase button" [] ;;
  purchase_button <- until cfg visibility_of_element_located
                       PURCHASE_CTA_BUTTON ;;
  log DEBUG "extract game title" [] ;;
  el <- find GAME_TITLE ;;
  name <- text_of el ;;
  log DEBUG "extract game price" [] ;;
  el <- find GAME_PRICE ;;
  price <- text_of el ;;
  log DEBUG "extract sales end date" [] ;;
  el <- find SALE_ENDS ;;
  expires <- text_of el ;;
  ret (purchase_button, name, price, expires).

(** Lines 276-394: the body of the loop over the offers. *)
Definition offer (cfg : config) (i : nat) : M unit :=
  log DEBUG "wait for and get all free games available" [] ;;
  games_found <- until_all (TIMEOUT cfg) FREE_NOW_DASH ;;
  el <- getitem (WebElements games_found) i ;;
  click el ;;
  mature_content cfg ;;
  read <- read_offer cfg ;;
  let '(purchase_button, name, price, expires) := read in
  act_on_label cfg purchase_button name price expires ;;
  perform (Get FREE_GAMES_PAGE_URL).

(** Lines 262-273: the cookies banner. *)
Definition cookies_banner (cfg : config) : M unit :=
  try_except
    (log DEBUG "close the cookies banner" [] ;;
     el <- until cfg element_to_be_clickable COOKIES_BANNER ;;
     click el)
    [NoSuchElementException]
    (fun _ => log DEBUG "no cookies banner to close" []).

(** Lines 249-260: the first query of the free games.  [None] stands for
    the [return] of the handler. *)
Definition free_games (cfg : config) : M (option (list element)) :=
  try_except
    (log DEBUG "wait for and get all free games available" [] ;;
     games_found <- until_all (TIMEOUT cfg) FREE_NOW ;;
     ret (Some games_found))
    [TimeoutException]
    (fun _ => log CRITICAL "no free games found" [] ;; ret None).

(** Lines 248-397: the guarded part of a cycle.  The result is [true] when
    the function has returned from inside it. *)
Definition enumerate (cfg : config) : M bool :=
  try_except
    (found <- free_games cfg ;;
     match found with
     | None => ret true
     | Some games_found =>
         cookies_banner cfg ;;
         for_range (length games_found) (offer cfg) ;;
         log INFO "all games processed" [] ;;
         ret false
     end)
    [TimeoutException; NoSuchElementException; WebDriverException]
    (fun e => log CRITICAL "%s" [ATraceback e] ;; ret false).

Definition execute (cfg : config) : M unit :=
  open_browser cfg ;;
  perform (Get FREE_GAMES_PAGE_URL) ;;
  load_cookies ;;
  try_except
    (_ <- find LOG_OUT ;; ret tt)
    [NoSuchElementException]
    (fun _ => login cfg) ;;
  returned <- enumerate cfg ;;
  if returned : bool then ret tt else perform Close.

(** ** [main] *)

(** Lines 415-418: the [while] loop.  [fuel] bounds the number of rounds
    the model runs; [None] is a loop still running when the fuel is
    spent.  The sleep is a command like the others: the loop is that of a
    SLEEPTIME that [time.sleep] takes, one up to [sleep_max]. *)
Fixpoint repeat_cycles (cfg : config) (fuel : nat) : M (option unit) :=
  if (0 <=? SLEEPTIME cfg)%Z then
    match fuel with
    | O => ret None
    | S fuel' =>
        log INFO "sleeping for %i seconds" [AInt (SLEEPTIME cfg)] ;;
        perform (Sleep (SLEEPTIME cfg)) ;;
        execute cfg ;;
        repeat_cycles cfg fuel'
    end
  else ret (Some tt).

(** Lines 414-418: the run loop. *)
Definition run_loop (cfg : config) (fuel : nat) : M (option unit) :=
  execute cfg ;;
  repeat_cycles cfg fuel.

(** [n * "*"] *)
Definition stars (n : nat) : string := String.concat "" (repeat "*" n).

(** [logger.setLevel(getattr(logging, name, "INFO"))] *)
Definition set_logger_level (name : string) : M unit :=
  fun w =>
    match set_level name with
    | None => (Done tt, w, [SetLevel name "INFO"])
    | Some e => (Raised e, w, [SetLevel name "INFO"])
    end.

Definition main (env : gmap string string) (fuel : nat) : M (option unit) :=
  match read_env_variables env with
  | Raised e => raise e
  | Done cfg =>
      emit (BasicConfig ERROR) ;;
      set_logger_level (LOGLEVEL cfg) ;;
      if (String.eqb (EMAIL cfg) "" || String.eqb (PASSWORD cfg) "")%bool then
        emit (Stdout "credentials missing") ;;
        ret (Some tt)
      else
        log DEBUG "started with TIMEOUT: %i, EMAIL: %s, password: %s"
          [AInt (TIMEOUT cfg); AStr (EMAIL cfg);
           AStr (stars (str_len (PASSWORD cfg)))] ;;
        run_loop cfg fuel
  end.

End Program.

(** ** A scripted store

    A host to run the script against: a store page described by a
    [scenario], in which the state of the world is the index of the offer
    page the browser is on.  The handle of the [i]-th offer link is
    [100 + i], the purchase button of its page [200 + i], its title, price
    and end of sale [300 + i], [400 + i] and [500 + i]; the titles and the
    buttons of the sub-items are [600 + t] and [700 + t].  Of the controls
    of the license agreement the first [license_controls] show up. *)
Module Store.

Record scenario : Type := {
  logged_in : bool;
  login_form_shown : bool;
  captcha_shown : bool;
  code_field_shown : bool;
  invalid_credentials_shown : bool;
  offers : list (string * string);
  requeried : nat;
  banner_shown : bool;
  mature : bool;
  license_controls : nat;
  primary_buttons : nat;
  confirmed : bool;
  editions : list (string * string);
  cookies : cookies_json
}.

Definition shown (b : bool) (e : element) : option element :=
  if b then Some e else None.

Definition answer_poll (s : scenario) (timeout : Z) (c : condition) (l : locator)
    (page : nat) : option element * nat :=
  let answer :=
    if locator_eqb l PURCHASE_CTA_BUTTON then Some (200 + page)%nat
    else if locator_eqb l PRIMARY_BUTTON then
      shown (bool_decide (1 <= primary_buttons s)%nat) 800%nat
    else if locator_eqb l AGREE
      then shown (bool_decide (1 <= license_controls s)%nat) 810%nat
    else if locator_eqb l ACCEPT_BUTTON
      then shown (bool_decide (2 <= license_controls s)%nat) 811%nat
    else if locator_eqb l COOKIES_BANNER then shown (banner_shown s) 820%nat
    else if locator_eqb l CAPTCHA_FRAME then shown (captcha_shown s) 830%nat
    else if locator_eqb l TWO_FACTOR_CODE then shown (code_field_shown s) 840%nat
    else if locator_eqb l INVALID_CREDENTIALS
      then shown (invalid_credentials_shown s) 850%nat
    else if locator_eqb l MATURE_CONTENT
      then shown (mature s) 860%nat
    else if locator_eqb l MATURE_CONTINUE
      then shown (mature s) 861%nat
    else if locator_eqb l USER_MENU
      then shown (login_form_shown s) 870%nat
    else if locator_eqb l LOGIN_WITH_EPIC
      then shown (login_form_shown s) 871%nat
    else if locator_eqb l EMAIL_FIELD
      then shown (login_form_shown s) 872%nat
    else if locator_eqb l SIGN_IN_BUTTON then shown (login_form_shown s) 874%nat
    else shown (confirmed s) 880%nat in
  (answer, page).

Definition answer_poll_all (s : scenario) (timeout : Z) (l : locator) (page : nat)
    : list element * nat :=
  let answer :=
    if locator_eqb l FREE_NOW then seq 100 (length (offers s))
    else if locator_eqb l FREE_NOW_DASH then seq 100 (requeried s)
    else if locator_eqb l PRIMARY_BUTTON then seq 800 (primary_buttons s)
    else if locator_eqb l EDITIONS_TITLES then seq 600 (length (editions s))
    else if locator_eqb l EDITIONS_BUTTONS then seq 700 (length (editions s))
    else [] in
  (answer, page).

Definition answer_find (s : scenario) (l : locator) (page : nat)
    : option element * nat :=
  let answer :=
    if locator_eqb l LOG_OUT
      then shown (logged_in s) 890%nat
    else if locator_eqb l GAME_TITLE
      then Some (300 + page)%nat
    else if locator_eqb l GAME_PRICE then Some (400 + page)%nat
    else if locator_eqb l SALE_ENDS
      then Some (500 + page)%nat
    else if locator_eqb l PASSWORD_FIELD then Some 873%nat
    else if locator_eqb l CONTINUE_BUTTON then Some 841%nat
    else None in
  (answer, page).

Definition read_text (s : scenario) (e : element) (page : nat) : string :=
  match (e / 100)%nat with
  | 2%nat => default "" (snd <$> offers s !! (e - 200)%nat)
  | 3%nat => default "" (fst <$> offers s !! (e - 300)%nat)
  | 4%nat => "$9.99"
  | 5%nat => "Sale ends 11/29/2019 at 3:59 PM"
  | 6%nat => default "" (fst <$> editions s !! (e - 600)%nat)
  | 7%nat => default "" (snd <$> editions s !! (e - 700)%nat)
  | _ => ""
  end.

Definition apply_command (ev : event) (page : nat) : nat :=
  match ev with
  | Click e => if (e / 100 =? 1)%nat then (e - 100)%nat else page
  | _ => page
  end.

Definition parse_int (s : string) : option Z :=
  if String.eqb s "-5" then Some (-5)
  else if String.eqb s "0" then Some 0
  else if String.eqb s "60" then Some 60
  else None.

Definition host (s : scenario) : Host nat := {|
  poll := answer_poll s;
  poll_all := answer_poll_all s;
  find_element := answer_find s;
  text := read_text s;
  command := apply_command;
  add_cookie := fun _ _ _ page => (true, page);
  cookies_file := fun _ => cookies s;
  totp_now := fun secret _ =>
    if String.eqb secret "not base32!" then None else Some "123456";
  int_of_str := parse_int;
  set_level := fun name =>
    if String.eqb name "BASIC_FORMAT" then Some ValueError else None;
  str_upper := upper;
  str_len := String.length;
  sleep_max := 4294967295
|}.

(** A store on which nothing goes wrong: the session is logged in, every
    required control shows up, no optional dialog does. *)
Definition plain (offers : list (string * string))
    (editions : list (string * string)) : scenario := {|
  logged_in := true;
  login_form_shown := true;
  captcha_shown := false;
  code_field_shown := true;
  invalid_credentials_shown := false;
  offers := offers;
  requeried := length offers;
  banner_shown := true;
  mature := false;
  license_controls := 0;
  primary_buttons := 1;
  confirmed := true;
  editions := editions;
  cookies := NoFile
|}.

Definition settings : config := {|
  DEBUG_ := false;
  TIMEOUT := 20;
  EMAIL := "user@example.com";
  PASSWORD := "secret";
  LOGLEVEL := "";
  SLEEPTIME := -1;
  TOTP := None
|}.

(** The store of the scenario of the specification: three offers with the
    labels OWNED, GET and SEE EDITIONS, the third with two sub-items with
    the labels OWNED and GET. *)
Definition three_offers : scenario :=
  plain [("A", "OWNED"); ("B", "GET"); ("C", "SEE EDITIONS")]
    [("C-edition1", "OWNED"); ("C-edition2", "GET")].

(** A store with no label SEE EDITIONS. *)
Definition simple_offers : scenario :=
  plain [("A", "OWNED"); ("B", "GET"); ("D", "COMING SOON")] [].

(** A store whose only offer bears the label SEE EDITIONS. *)
Definition one_with_editions : scenario :=
  plain [("C", "SEE EDITIONS")] [("C-edition1", "OWNED")].

(** A store of two offers on which the purchase flow finds no primary
    button. *)
Definition no_primary_button : scenario := {|
  logged_in := true;
  login_form_shown := true;
  captcha_shown := false;
  code_field_shown := true;
  invalid_credentials_shown := false;
  offers := [("B", "GET"); ("A", "OWNED")];
  requeried := 2;
  banner_shown := true;
  mature := false;
  license_controls := 0;
  primary_buttons := 0;
  confirmed := true;
  editions := [];
  cookies := NoFile
|}.

(** A store with no cookies banner. *)
Definition no_banner : scenario := {|
  logged_in := true;
  login_form_shown := true;
  captcha_shown := false;
  code_field_shown := true;
  invalid_credentials_shown := false;
  offers := [("B", "GET")];
  requeried := 1;
  banner_shown := false;
  mature := false;
  license_controls := 0;
  primary_buttons := 1;
  confirmed := true;
  editions := [];
  cookies := NoFile
|}.

(** A store that shows neither the logout control nor the login form. *)
Definition no_login_form : scenario := {|
  logged_in := false;
  login_form_shown := false;
  captcha_shown := false;
  code_field_shown := false;
  invalid_credentials_shown := false;
  offers := [("A", "OWNED")];
  requeried := 1;
  banner_shown := true;
  mature := false;
  license_controls := 0;
  primary_buttons := 1;
  confirmed := true;
  editions := [];
  cookies := NoFile
|}.

(** A store that answers the sign-in with a captcha. *)
Definition with_captcha : scenario := {|
  logged_in := false;
  login_form_shown := true;
  captcha_shown := true;
  code_field_shown := true;
  invalid_credentials_shown := false;
  offers := [("A", "OWNED")];
  requeried := 1;
  banner_shown := true;
  mature := false;
  license_controls := 0;
  primary_buttons := 1;
  confirmed := true;
  editions := [];
  cookies := NoFile
|}.

(** A store that asks for the one-time password. *)
Definition with_two_factor : scenario := {|
  logged_in := false;
  login_form_shown := true;
  captcha_shown := false;
  code_field_shown := true;
  invalid_credentials_shown := false;
  offers := [("A", "OWNED")];
  requeried := 1;
  banner_shown := true;
  mature := false;
  license_controls := 0;
  primary_buttons := 1;
  confirmed := true;
  editions := [];
  cookies := NoFile
|}.

(** A store that shows the agreement control and then no Accept button. *)
Definition agreement_without_accept : scenario := {|
  logged_in := true;
  login_form_shown := true;
  captcha_shown := false;
  code_field_shown := true;
  invalid_credentials_shown := false;
  offers := [("B", "GET")];
  requeried := 1;
  banner_shown := true;
  mature := false;
  license_controls := 1;
  primary_buttons := 2;
  confirmed := true;
  editions := [];
  cookies := NoFile
|}.

(** A store with no free offer. *)
Definition no_offers : scenario := plain [] [].

Definition with_secret : config := {|
  DEBUG_ := false;
  TIMEOUT := 20;
  EMAIL := "user@example.com";
  PASSWORD := "secret";
  LOGLEVEL := "";
  SLEEPTIME := -1;
  TOTP := Some "JBSWY3DPEHPK3PXP"
|}.


Definition environment : gmap string string :=
  list_to_map [("EMAIL", "user@example.com"); ("PASSWORD", "secret")].

Definition environment_with_secret : gmap string string :=
  list_to_map [("EMAIL", "user@example.com"); ("PASSWORD", "secret");
               ("TOTP", "JBSWY3DPEHPK3PXP")].

(** The last [n] events. *)
Definition last_events (n : nat) (t : trace) : trace :=
  drop (length t - n) t.

End Store.


(** ** Vocabulary of the statements *)

Section Vocabulary.

Context {W : Type} {host : Host W}.

(** A timeout at one of the three waits of the agreement step of
    [purchase_steps], with the world it leaves and the events up to it. *)
Inductive agreement_timeout (cfg : config) (w : W) : W -> trace -> Prop :=
| timeout_at_agree w1 :
    poll (TIMEOUT cfg) visibility_of_element_located AGREE w = (None, w1) ->
    agreement_timeout cfg w w1
      [Log DEBUG "find and accept license agreement" [];
       Until (TIMEOUT cfg) visibility_of_element_located AGREE]
| timeout_at_accept agree w1 w2 :
    poll (TIMEOUT cfg) visibility_of_element_located AGREE w
      = (Some agree, w1) ->
    poll (TIMEOUT cfg) visibility_of_element_located ACCEPT_BUTTON
      (command (Click agree) w1) = (None, w2) ->
    agreement_timeout cfg w w2
      [Log DEBUG "find and accept license agreement" [];
       Until (TIMEOUT cfg) visibility_of_element_located AGREE;
       Click agree;
       Until (TIMEOUT cfg) visibility_of_element_located ACCEPT_BUTTON]
| timeout_at_purchase_again agree w1 accept w2 w3 :
    poll (TIMEOUT cfg) visibility_of_element_located AGREE w
      = (Some agree, w1) ->
    poll (TIMEOUT cfg) visibility_of_element_located ACCEPT_BUTTON
      (command (Click agree) w1) = (Some accept, w2) ->
    poll (TIMEOUT cfg) visibility_of_element_located PURCHASE_CTA_BUTTON
      (command (Click accept) w2) = (None, w3) ->
    agreement_timeout cfg w w3
      [Log DEBUG "find and accept license agreement" [];
       Until (TIMEOUT cfg) visibility_of_element_located AGREE;
       Click agree;
       Until (TIMEOUT cfg) visibility_of_element_located ACCEPT_BUTTON;
       Click accept;
       Log DEBUG "find and clicking again the purchase button" [];
       Until (TIMEOUT cfg) visibility_of_element_located PURCHASE_CTA_BUTTON].

(** The two conditions that end the process from inside [login]. *)
Inductive fatal : Type := captcha_found | credentials_invalid.

Definition fatal_condition (p : fatal) : condition :=
  match p with
  | captcha_found => presence_of_element_located
  | credentials_invalid => visibility_of_element_located
  end.

Definition fatal_locator (p : fatal) : locator :=
  match p with
  | captcha_found => CAPTCHA_FRAME
  | credentials_invalid => INVALID_CREDENTIALS
  end.

Definition fatal_announce (p : fatal) : string :=
  match p with
  | captcha_found => "Checking for captcha"
  | credentials_invalid => "search for wrong credentials message"
  end.

Definition fatal_message (p : fatal) : string :=
  match p with
  | captcha_found => "Captcha found. Can't procede any further."
  | credentials_invalid => "failed to login into account, credentials invalid"
  end.

Definition is_fatal_log (ev : event) : bool :=
  match ev with
  | Log CRITICAL fmt [] =>
      String.eqb fmt (fatal_message captcha_found)
      || String.eqb fmt (fatal_message credentials_invalid)
  | _ => false
  end.

(** [emits P m]: every event of every run of [m] satisfies [P]. *)
Definition emits {A} (P : event -> bool) (m : M W A) : Prop :=
  forall w, forallb P (snd (m w)) = true.

(** A result in which a fatal entry, if there is one, is followed by the
    closing of the browser and by nothing else, and comes with
    [SystemExit(0)]. *)
Definition exits_at_once {A} (r : outcome A * W * trace) : Prop :=
  forall p,
    In (Log CRITICAL (fatal_message p) []) (snd r) ->
    fst (fst r) = Raised (SystemExit 0) /\
    exists t0, snd r = t0 ++ [Log CRITICAL (fatal_message p) []; Close].

Definition safe {A} (m : M W A) : Prop := forall w, exits_at_once (m w).

(** The part of [login] that runs before the check for [p], and the
    check. *)
Definition before_check (cfg : config) (p : fatal) : M W unit :=
  match p with
  | captcha_found => login_form cfg
  | credentials_invalid =>
      login_form cfg ;; captcha_check cfg ;; two_factor cfg
  end.

Definition fatal_check (cfg : config) (p : fatal) : M W unit :=
  match p with
  | captcha_found => captcha_check cfg
  | credentials_invalid => credentials_check cfg
  end.

(** A timeout at one of the four waits of the login form, with the world it
    leaves and the events up to it. *)
Inductive login_form_timeout (cfg : config) (w : W) : W -> trace -> Prop :=
| timeout_at_user_menu w1 :
    poll (TIMEOUT cfg) element_to_be_clickable USER_MENU w = (None, w1) ->
    login_form_timeout cfg w w1
      [Log DEBUG "find and click on login button" [];
       Until (TIMEOUT cfg) element_to_be_clickable USER_MENU]
| timeout_at_login_method user w1 w2 :
    poll (TIMEOUT cfg) element_to_be_clickable USER_MENU w = (Some user, w1) ->
    poll (TIMEOUT cfg) element_to_be_clickable LOGIN_WITH_EPIC
      (command (Click user) w1) = (None, w2) ->
    login_form_timeout cfg w w2
      [Log DEBUG "find and click on login button" [];
       Until (TIMEOUT cfg) element_to_be_clickable USER_MENU;
       Click user;
       Log DEBUG "find and click on EpicGame login method" [];
       Until (TIMEOUT cfg) element_to_be_clickable LOGIN_WITH_EPIC]
| timeout_at_email user w1 method w2 w3 :
    poll (TIMEOUT cfg) element_to_be_clickable USER_MENU w = (Some user, w1) ->
    poll (TIMEOUT cfg) element_to_be_clickable LOGIN_WITH_EPIC
      (command (Click user) w1) = (Some method, w2) ->
    poll (TIMEOUT cfg) element_to_be_clickable EMAIL_FIELD
      (command (Click method) w2) = (None, w3) ->
    login_form_timeout cfg w w3
      [Log DEBUG "find and click on login button" [];
       Until (TIMEOUT cfg) element_to_be_clickable USER_MENU;
       Click user;
       Log DEBUG "find and click on EpicGame login method" [];
       Until (TIMEOUT cfg) element_to_be_clickable LOGIN_WITH_EPIC;
       Click method;
       Log DEBUG "wait for email field on login page" [];
       Until (TIMEOUT cfg) element_to_be_clickable EMAIL_FIELD]
| timeout_at_sign_in user w1 method w2 email w3 password w4 w5 :
    poll (TIMEOUT cfg) element_to_be_clickable USER_MENU w = (Some user, w1) ->
    poll (TIMEOUT cfg) element_to_be_clickable LOGIN_WITH_EPIC
      (command (Click user) w1) = (Some method, w2) ->
    poll (TIMEOUT cfg) element_to_be_clickable EMAIL_FIELD
      (command (Click method) w2) = (Some email, w3) ->
    find_element PASSWORD_FIELD (command (SendKeys email (EMAIL cfg)) w3)
      = (Some password, w4) ->
    poll (TIMEOUT cfg) element_to_be_clickable SIGN_IN_BUTTON
      (command (SendKeys password (PASSWORD cfg)) w4) = (None, w5) ->
    login_form_timeout cfg w w5
      [Log DEBUG "find and click on login button" [];
       Until (TIMEOUT cfg) element_to_be_clickable USER_MENU;
       Click user;
       Log DEBUG "find and click on EpicGame login method" [];
       Until (TIMEOUT cfg) element_to_be_clickable LOGIN_WITH_EPIC;
       Click method;
       Log DEBUG "wait for email field on login page" [];
       Until (TIMEOUT cfg) element_to_be_clickable EMAIL_FIELD;
       SendKeys email (EMAIL cfg);
       FindElement PASSWORD_FIELD;
       SendKeys password (PASSWORD cfg);
       Until (TIMEOUT cfg) element_to_be_clickable SIGN_IN_BUTTON].

(** A wait for the field of the one-time password. *)
Definition is_two_factor_wait (ev : event) : bool :=
  match ev with
  | Until _ _ l => locator_eqb l TWO_FACTOR_CODE
  | _ => false
  end.

(** A click. *)
Definition is_click (ev : event) : bool :=
  match ev with
  | Click _ => true
  | _ => false
  end.

(** What the enumerator does with an offer. *)
Inductive action : Type := Skip | Purchase | Warn.

(** The events that mark an action: the entry of an owned offer, the first
    entry of a run of the purchase flow, the warning for a label that is
    not recognized. *)
Definition action_of (ev : event) : option action :=
  match ev with
  | Log INFO fmt _ => if String.eqb fmt FMT_OWNED then Some Skip else None
  | Log DEBUG fmt _ =>
      if String.eqb fmt "find and accept license agreement" then Some Purchase
      else None
  | Log WARNING fmt _ =>
      if String.eqb fmt FMT_NOT_RECOGNIZED then Some Warn else None
  | _ => None
  end.

Definition actions (t : trace) : list action := omap action_of t.

Definition is_action (ev : event) : bool :=
  match action_of ev with
  | Some _ => true
  | None => false
  end.

(** The action for a label other than SEE EDITIONS. *)
Definition action_for (label : string) : action :=
  if String.eqb label "OWNED" then Skip
  else if String.eqb label "GET" then Purchase
  else Warn.

(** The query of the offers at the head of a round of the loop. *)
Definition is_requery (ev : event) : bool :=
  match ev with
  | Until _ visibility_of_all_elements_located l => locator_eqb l FREE_NOW_DASH
  | _ => false
  end.

(** One round of the loop over the offers, for the index [i]: the offers
    are queried again, the [i]-th of the answer is clicked, the offer is
    read and acted upon, and the browser goes back to the free-games
    page.  The round holds the one query of the offers, and one action,
    which is the one for the label of the purchase button. *)
Definition round (cfg : config) (i : nat) (w w' : W) (t : trace) : Prop :=
  exists games w1 el w2 tm purchase_button name price expires w3 tr w4 ta,
    poll_all (TIMEOUT cfg) FREE_NOW_DASH w = (games, w1) /\
    games !! i = Some el /\
    mature_content cfg (command (Click el) w1) = (Done tt, w2, tm) /\
    read_offer cfg w2
      = (Done (purchase_button, name, price, expires), w3, tr) /\
    act_on_label cfg purchase_button name price expires w3
      = (Done tt, w4, ta) /\
    w' = command (Get FREE_GAMES_PAGE_URL) w4 /\
    offer cfg i w = (Done tt, w', t) /\
    t = [Log DEBUG "wait for and get all free games available" [];
         Until (TIMEOUT cfg) visibility_of_all_elements_located FREE_NOW_DASH;
         Click el] ++ tm ++ tr ++ ta ++ [Get FREE_GAMES_PAGE_URL] /\
    forallb (fun ev => negb (is_requery ev))
      (tm ++ tr ++ ta ++ [Get FREE_GAMES_PAGE_URL]) = true /\
    actions (tm ++ tr) = [] /\
    text purchase_button w3 <> "SEE EDITIONS" /\
    actions ta = [action_for (text purchase_button w3)].

(** [count] rounds in a row, for the indices from [i] on. *)
Inductive rounds (cfg : config) : nat -> nat -> W -> W -> trace -> Prop :=
| rounds_done i w : rounds cfg i 0 w w []
| rounds_next i count w w1 w2 t ts :
    round cfg i w w1 t ->
    rounds cfg (S i) count w1 w2 ts ->
    rounds cfg i (S count) w w2 (t ++ ts).

(** The store cooperates along [count] rounds from the index [i] on, the
    first starting in the world [w]: in each round, in the world the round
    has then reached, the query of the offers yields a list that has an
    element at the index of the round, the purchase button, the title, the
    price and the end of sale of the offer are found, the label of the
    button does not read SEE EDITIONS, and the action on it ends normally
    (for GET: the primary button and the confirmation of the purchase flow
    show up).  Nothing is asked of the worlds that the rounds do not go
    through. *)
Inductive cooperates (cfg : config) : nat -> nat -> W -> Prop :=
| cooperates_done i w : cooperates cfg i 0 w
| cooperates_next i count w games w1 el w2 tm purchase_button name price
    expires w3 tr w4 ta :
    poll_all (TIMEOUT cfg) FREE_NOW_DASH w = (games, w1) ->
    games !! i = Some el ->
    mature_content cfg (command (Click el) w1) = (Done tt, w2, tm) ->
    read_offer cfg w2
      = (Done (purchase_button, name, price, expires), w3, tr) ->
    text purchase_button w3 <> "SEE EDITIONS" ->
    act_on_label cfg purchase_button name price expires w3
      = (Done tt, w4, ta) ->
    cooperates cfg (S i) count (command (Get FREE_GAMES_PAGE_URL) w4) ->
    cooperates cfg i (S count) w.




End Vocabulary.

(** ** Vocabulary of the further statements *)

Definition exn_eqb (a b : exn) : bool :=
  match a, b with
  | TimeoutException, TimeoutException
  | NoSuchElementException, NoSuchElementException
  | WebDriverException, WebDriverException
  | LookupError, LookupError
  | IndexError, IndexError
  | KeyError, KeyError
  | TypeError, TypeError
  | AttributeError, AttributeError
  | ValueError, ValueError
  | FileNotFoundError, FileNotFoundError
  | JSONDecodeError, JSONDecodeError
  | BinasciiError, BinasciiError => true
  | SystemExit c, SystemExit c' => Z.eqb c c'
  | _, _ => false
  end.

(** [e] is one of the listed exceptions. *)
Definition one_of (l : list exn) (e : exn) : bool := existsb (exn_eqb e) l.

(** The value of [key] in a JSON object, if it has one. *)
Definition value_of (d : list (string * string)) (key : string)
    : option string :=
  snd <$> List.find (fun kv => String.eqb (fst kv) key) d.

(** The call of [add_cookie] an entry of the cookies file leads to: none
    when one of the three keys is missing. *)
Definition cookie_of (d : list (string * string)) : option event :=
  match value_of d "name", value_of d "value", value_of d "domain" with
  | Some name, Some value, Some domain => Some (AddCookie name value domain)
  | _, _, _ => None
  end.

(** A call of [send_keys]. *)
Definition is_send_keys (ev : event) : bool :=
  match ev with
  | SendKeys _ _ => true
  | _ => false
  end.

(** The handler of a cycle catches [e]. *)
Definition caught_by_the_cycle (e : exn) : bool :=
  existsb (isinstance e)
    [TimeoutException; NoSuchElementException; WebDriverException].

Section Outcomes.

Context {W : Type} {host : Host W}.

(** [raises P m]: an exception that a run of [m] ends with satisfies [P]. *)
Definition raises {A} (P : exn -> bool) (m : M W A) : Prop :=
  forall w e, fst (fst (m w)) = Raised e -> P e = true.

(** The variable [name] holds a non-empty string that [int] rejects. *)
Definition bad_integer (env : gmap string string) (name : string) : Prop :=
  exists s, env !! name = Some s /\ s <> "" /\ int_of_str s = None.

(** The three parts of [execute]: the browser is opened on the free-games
    page with the saved cookies; the session is logged in unless it is
    already; the offers are processed and the browser closed. *)
Definition browser_start (cfg : config) : M W unit :=
  open_browser cfg ;;
  perform (Get FREE_GAMES_PAGE_URL) ;;
  load_cookies.

Definition authenticate (cfg : config) : M W unit :=
  try_except
    (_ <- find LOG_OUT ;; ret tt)
    [NoSuchElementException]
    (fun _ => login cfg).

Definition finish_cycle (cfg : config) : M W unit :=
  returned <- enumerate cfg ;;
  if returned : bool then ret tt else perform Close.

End Outcomes.

(** Further stores to run the script against. *)
Module Cases.

Import Store.

(** A store whose later queries yield one offer fewer than the first. *)
Definition one_offer_gone : scenario := {|
  logged_in := true;
  login_form_shown := true;
  captcha_shown := false;
  code_field_shown := true;
  invalid_credentials_shown := false;
  offers := [("A", "OWNED"); ("B", "GET")];
  requeried := 1;
  banner_shown := true;
  mature := false;
  license_controls := 0;
  primary_buttons := 1;
  confirmed := true;
  editions := [];
  cookies := NoFile
|}.

(** A store with a cookies file of three entries, the second with no
    domain. *)
Definition with_cookies : scenario := {|
  logged_in := true;
  login_form_shown := true;
  captcha_shown := false;
  code_field_shown := true;
  invalid_credentials_shown := false;
  offers := [];
  requeried := 0;
  banner_shown := true;
  mature := false;
  license_controls := 0;
  primary_buttons := 1;
  confirmed := true;
  editions := [];
  cookies :=
    Entries
      [[("name", "EPIC_SSO"); ("value", "abc"); ("domain", ".epicgames.com")];
       [("name", "EPIC_BEARER"); ("value", "def")];
       [("domain", ".epicgames.com"); ("value", "en-US");
        ("name", "EPIC_LOCALE"); ("path", "/")]]
|}.



Definition environment_without_password : gmap string string :=
  list_to_map [("EMAIL", "user@example.com"); ("PASSWORD", "");
               ("SLEEPTIME", "60")].

Definition environment_with_bad_timeout : gmap string string :=
  list_to_map [("EMAIL", "user@example.com"); ("PASSWORD", "secret");
               ("TIMEOUT", "soon")].

Definition without_password : config := {|
  DEBUG_ := false;
  TIMEOUT := 20;
  EMAIL := "user@example.com";
  PASSWORD := "";
  LOGLEVEL := "";
  SLEEPTIME := 60;
  TOTP := None
|}.

End Cases.

(** * Properties *)

Section Laws.

Context {W : Type} {host : Host W}.

Lemma prepend_nil {A} (r : outcome A * W * trace) : prepend [] r = r.
Proof. by destruct r as [[o w] t]. Qed.

Lemma prepend_prepend {A} (t1 t2 : trace) (r : outcome A * W * trace) :
  prepend t1 (prepend t2 r) = prepend (t1 ++ t2) r.
Proof. destruct r as [[o w] t]. simpl. by rewrite app_assoc. Qed.

Lemma bind_done {A B} (m : M W A) (k : A -> M W B) w a w1 t1 :
  m w = (Done a, w1, t1) -> bind m k w = prepend t1 (k a w1).
Proof. intros H. unfold bind. by rewrite H. Qed.

Lemma bind_raised {A B} (m : M W A) (k : A -> M W B) w e w1 t1 :
  m w = (Raised e, w1, t1) -> bind m k w = (Raised e, w1, t1).
Proof. intros H. unfold bind. by rewrite H. Qed.

Lemma bind_assoc {A B C} (m : M W A) (k : A -> M W B) (k' : B -> M W C) w :
  bind (bind m k) k' w = bind m (fun a => bind (k a) k') w.
Proof.
  unfold bind. destruct (m w) as [[[a|e] w1] t1]; [|reflexivity].
  destruct (k a w1) as [[[b|e] w2] t2]; simpl; [|reflexivity].
  by rewrite prepend_prepend.
Qed.

Lemma bind_done_inv {A B} (m : M W A) (k : A -> M W B) w b w' t :
  bind m k w = (Done b, w', t) ->
  exists a w1 t1 t2,
    m w = (Done a, w1, t1) /\ k a w1 = (Done b, w', t2) /\ t = t1 ++ t2.
Proof.
  unfold bind. destruct (m w) as [[[a|e] w1] t1]; [|discriminate].
  destruct (k a w1) as [[o w2] t2] eqn:Hk. simpl. intros [= ? ? ?]. subst.
  by exists a, w1, t1, t2.
Qed.

Lemma try_done {A} (m : M W A) classes handler w a w1 t1 :
  m w = (Done a, w1, t1) -> try_except m classes handler w = (Done a, w1, t1).
Proof. intros H. unfold try_except. by rewrite H. Qed.

Lemma try_caught {A} (m : M W A) classes handler w e w1 t1 :
  m w = (Raised e, w1, t1) ->
  existsb (isinstance e) classes = true ->
  try_except m classes handler w = prepend t1 (handler e w1).
Proof. intros H Hc. unfold try_except. by rewrite H, Hc. Qed.

Lemma try_escapes {A} (m : M W A) classes handler w e w1 t1 :
  m w = (Raised e, w1, t1) ->
  existsb (isinstance e) classes = false ->
  try_except m classes handler w = (Raised e, w1, t1).
Proof. intros H Hc. unfold try_except. by rewrite H, Hc. Qed.

(** A log call, a command and a property read never fail. *)
Lemma bind_emit {B} ev (k : unit -> M W B) w :
  bind (emit ev) k w = prepend [ev] (k tt w).
Proof. reflexivity. Qed.

Lemma bind_log {B} lvl fmt args (k : unit -> M W B) w :
  bind (log lvl fmt args) k w = prepend [Log lvl fmt args] (k tt w).
Proof. reflexivity. Qed.

Lemma bind_perform {B} ev (k : unit -> M W B) w :
  bind (perform ev) k w = prepend [ev] (k tt (command ev w)).
Proof. reflexivity. Qed.

Lemma bind_click {B} e (k : unit -> M W B) w :
  bind (click e) k w = prepend [Click e] (k tt (command (Click e) w)).
Proof. reflexivity. Qed.

Lemma bind_text_of {B} e (k : string -> M W B) w :
  bind (text_of e) k w = k (text e w) w.
Proof. unfold bind, text_of. apply prepend_nil. Qed.

Lemma bind_ret {A B} (a : A) (k : A -> M W B) w : bind (ret a) k w = k a w.
Proof. unfold bind, ret. apply prepend_nil. Qed.

Lemma until_found cfg c l w e w1 :
  poll (TIMEOUT cfg) c l w = (Some e, w1) ->
  until cfg c l w = (Done e, w1, [Until (TIMEOUT cfg) c l]).
Proof. intros H. unfold until. by rewrite H. Qed.

Lemma until_timeout cfg c l w w1 :
  poll (TIMEOUT cfg) c l w = (None, w1) ->
  until cfg c l w = (Raised TimeoutException, w1, [Until (TIMEOUT cfg) c l]).
Proof. intros H. unfold until. by rewrite H. Qed.

(** ** Events of all runs *)

Lemma emits_ret {A} P (a : A) : emits (W := W) P (ret a).
Proof. intros w. reflexivity. Qed.

Lemma emits_raise {A} P e : emits (W := W) (A := A) P (raise e).
Proof. intros w. reflexivity. Qed.

Lemma emits_bind {A B} P (m : M W A) (k : A -> M W B) :
  emits P m -> (forall a, emits P (k a)) -> emits P (bind m k).
Proof.
  intros Hm Hk w. unfold bind. specialize (Hm w).
  destruct (m w) as [[[a|e] w1] t1]; [|exact Hm].
  specialize (Hk a w1). destruct (k a w1) as [[o w2] t2]. simpl in *.
  rewrite forallb_app. by rewrite Hm, Hk.
Qed.

Lemma emits_try {A} P (m : M W A) classes handler :
  emits P m -> (forall e, emits P (handler e)) ->
  emits P (try_except m classes handler).
Proof.
  intros Hm Hh w. unfold try_except. specialize (Hm w).
  destruct (m w) as [[[a|e] w1] t1]; [exact Hm|].
  destruct (existsb (isinstance e) classes); [|exact Hm].
  specialize (Hh e w1). destruct (handler e w1) as [[o w2] t2]. simpl in *.
  rewrite forallb_app. by rewrite Hm, Hh.
Qed.

Lemma emits_try2 {A} P (m : M W A) c1 h1 c2 h2 :
  emits P m -> (forall e, emits P (h1 e)) -> (forall e, emits P (h2 e)) ->
  emits P (try_except2 m c1 h1 c2 h2).
Proof.
  intros Hm H1 H2 w. unfold try_except2. specialize (Hm w).
  destruct (m w) as [[[a|e] w1] t1]; [exact Hm|].
  destruct (existsb (isinstance e) c1).
  - specialize (H1 e w1). destruct (h1 e w1) as [[o w2] t2]. simpl in *.
    rewrite forallb_app. by rewrite Hm, H1.
  - destruct (existsb (isinstance e) c2); [|exact Hm].
    specialize (H2 e w1). destruct (h2 e w1) as [[o w2] t2]. simpl in *.
    rewrite forallb_app. by rewrite Hm, H2.
Qed.

Lemma emits_for_each {A} P (l : list A) (body : A -> M W unit) :
  (forall x, emits P (body x)) -> emits P (for_each l body).
Proof.
  intros Hb. induction l as [|x rest IH]; simpl.
  - apply emits_ret.
  - apply emits_bind; [apply Hb | intros _; exact IH].
Qed.

Lemma emits_comprehension {A B} P (f : A -> M W B) (l : list A) :
  (forall x, emits P (f x)) -> emits P (comprehension f l).
Proof.
  intros Hf. induction l as [|x rest IH]; simpl.
  - apply emits_ret.
  - apply emits_bind; [apply Hf | intros y].
    apply emits_bind; [exact IH | intros ys; apply emits_ret].
Qed.

Lemma emits_emit P ev : P ev = true -> emits (W := W) P (emit ev).
Proof. intros H w. simpl. by rewrite H. Qed.

Lemma emits_perform P ev : P ev = true -> emits P (perform ev).
Proof. intros H w. simpl. by rewrite H. Qed.

Lemma emits_until P cfg c l :
  P (Until (TIMEOUT cfg) c l) = true -> emits P (until cfg c l).
Proof.
  intros H w. unfold until.
  destruct (poll (TIMEOUT cfg) c l w) as [[e|] w1]; simpl; by rewrite H.
Qed.

Lemma emits_until_all P timeout l :
  P (Until timeout visibility_of_all_elements_located l) = true ->
  emits P (until_all timeout l).
Proof.
  intros H w. unfold until_all.
  destruct (poll_all timeout l w) as [[|e es] w1]; simpl; by rewrite H.
Qed.

Lemma emits_find P l : P (FindElement l) = true -> emits P (find l).
Proof.
  intros H w. unfold find.
  destruct (find_element l w) as [[e|] w1]; simpl; by rewrite H.
Qed.

Lemma emits_text_of P e : emits P (text_of e).
Proof. intros w. reflexivity. Qed.

Lemma emits_now P secret : emits P (now secret).
Proof. intros w. unfold now. by destruct (totp_now secret w). Qed.

Lemma emits_set_level P name :
  P (SetLevel name "INFO") = true -> emits P (set_logger_level name).
Proof.
  intros H w. unfold set_logger_level.
  destruct (set_level name); simpl; by rewrite H.
Qed.

Lemma emits_add_cookie P name value domain :
  P (AddCookie name value domain) = true ->
  emits P (add_cookie_call name value domain).
Proof.
  intros H w. unfold add_cookie_call.
  destruct (add_cookie name value domain w) as [[|] w1]; simpl; by rewrite H.
Qed.

Lemma emits_json_load P :
  P (OpenFile "cookies.json") = true -> emits P json_load_cookies.
Proof.
  intros H w. unfold json_load_cookies.
  destruct (cookies_file w); simpl; by rewrite H.
Qed.

(** ** Fatal entries *)

Lemma fatal_message_is_fatal p :
  is_fatal_log (Log CRITICAL (fatal_message p) []) = true.
Proof. by destruct p. Qed.

Lemma safe_quiet {A} (m : M W A) :
  emits (fun ev => negb (is_fatal_log ev)) m -> safe m.
Proof.
  intros Hm w p Hin. specialize (Hm w).
  rewrite forallb_forall in Hm. apply Hm in Hin.
  by rewrite fatal_message_is_fatal in Hin.
Qed.

Lemma safe_bind {A B} (m : M W A) (k : A -> M W B) :
  safe m -> (forall a, safe (k a)) -> safe (bind m k).
Proof.
  intros Hm Hk w p. unfold bind. specialize (Hm w p).
  destruct (m w) as [[[a|e] w1] t1]; simpl in *;
    [|intros Hin; by destruct (Hm Hin) as [[= ->] Ht]].
  specialize (Hk a w1 p). destruct (k a w1) as [[o w2] t2]. simpl in *.
  intros [Hin|Hin]%in_app_or.
  - by destruct (Hm Hin).
  - destruct (Hk Hin) as [-> [t0 ->]]. split; [done|].
    exists (t1 ++ t0). by rewrite app_assoc.
Qed.

Lemma safe_try {A} (m : M W A) classes handler :
  existsb (isinstance (SystemExit 0)) classes = false ->
  safe m -> (forall e, safe (handler e)) ->
  safe (try_except m classes handler).
Proof.
  intros Hc Hm Hh w p. unfold try_except. specialize (Hm w p).
  destruct (m w) as [[[a|e] w1] t1]; [exact Hm|].
  destruct (existsb (isinstance e) classes) eqn:He; [|exact Hm].
  specialize (Hh e w1 p). destruct (handler e w1) as [[o w2] t2]. simpl in *.
  intros [Hin|Hin]%in_app_or.
  - destruct (Hm Hin) as [[= ->] _]. congruence.
  - destruct (Hh Hin) as [-> [t0 ->]]. split; [done|].
    exists (t1 ++ t0). by rewrite app_assoc.
Qed.

Lemma safe_exit {A} p :
  safe (A := A)
    (log CRITICAL (fatal_message p) [] ;; perform Close ;; exit 0).
Proof.
  intros w q Hin. split; [done|]. simpl in *.
  destruct Hin as [[= Heq]|[[=]|[]]]. exists []. simpl. by rewrite Heq.
Qed.

End Laws.

(** ** The purchase flow *)

Section PurchaseFlow.

Context {W : Type} {host : Host W}.

(** C10.  In the agreement step a timeout at any of the three waits (the
    agreement control, the Accept button, the purchase button again) is
    caught by the one handler of the step: the step ends normally with the
    debug entry, also when the agreement control was already clicked, and
    the purchase flow goes on with the wait for the primary purchase
    button. *)
Theorem agreement_timeouts_share_one_handler (cfg : config) (w w' : W)
    (t : trace) :
  agreement_timeout cfg w w' t ->
  license_agreement cfg w
    = (Done tt, w', t ++ [Log DEBUG "no license agreement found" []]) /\
  purchase_steps cfg w
    = prepend (t ++ [Log DEBUG "no license agreement found" []])
        ((primary_purchase cfg ;; refund_notice cfg ;; confirmation cfg) w') /\
  exists r,
    purchase_steps cfg w
      = prepend
          (t ++ [Log DEBUG "no license agreement found" [];
                 Log DEBUG "find and click on the last purchase button" [];
                 Until (TIMEOUT cfg) visibility_of_element_located
                   PRIMARY_BUTTON]) r.
Proof.
  intros Ht.
  assert (Hstep : license_agreement cfg w
            = (Done tt, w', t ++ [Log DEBUG "no license agreement found" []])).
  { destruct Ht as [w1 H1 | agree w1 w2 H1 H2 | agree w1 accept w2 w3 H1 H2 H3];
      unfold license_agreement, try_except, bind, log, emit, click, perform,
        until; simpl.
    - by rewrite H1.
    - rewrite H1; simpl. by rewrite H2.
    - rewrite H1; simpl. rewrite H2; simpl. by rewrite H3. }
  assert (Hflow : purchase_steps cfg w
            = prepend (t ++ [Log DEBUG "no license agreement found" []])
                ((primary_purchase cfg ;; refund_notice cfg ;;
                  confirmation cfg) w')).
  { unfold purchase_steps. by rewrite (bind_done _ _ _ _ _ _ Hstep). }
  split; [exact Hstep | split; [exact Hflow |]].
  rewrite Hflow. unfold primary_purchase.
  rewrite bind_assoc, bind_log, bind_assoc.
  destruct (poll (TIMEOUT cfg) visibility_of_element_located PRIMARY_BUTTON w')
    as [[el|] w1] eqn:Hp.
  - rewrite (bind_done _ _ _ _ _ _ (until_found _ _ _ _ _ _ Hp)).
    rewrite bind_click. simpl.
    destruct ((refund_notice cfg;; confirmation cfg) (command (Click el) w1))
      as [[o w2] t2].
    exists (o, w2, Click el :: t2). simpl.
    by rewrite <- !app_assoc.
  - rewrite (bind_raised _ _ _ _ _ _ (until_timeout _ _ _ _ _ Hp)). simpl.
    exists (Raised TimeoutException, w1, []). simpl.
    by rewrite <- !app_assoc.
Qed.

(** C8.  At the refund-notice step, when the wait yields at least two
    controls of the primary-button style the second one (index 1) is
    clicked; when it times out (no control, or none in time) or yields
    fewer than two, the step ends normally with a debug entry.  Either way
    the flow goes on with the confirmation step. *)
Theorem refund_notice_second_button_or_continue (cfg : config) (w : W) :
  match poll_all (TIMEOUT cfg) PRIMARY_BUTTON w with
  | (_ :: second :: _, w1) =>
      refund_notice cfg w
        = (Done tt, command (Click second) w1,
           [Log DEBUG "accept the conditions of refund popup" [];
            Until (TIMEOUT cfg) visibility_of_all_elements_located
              PRIMARY_BUTTON;
            Click second])
  | (_, w1) =>
      refund_notice cfg w
        = (Done tt, w1,
           [Log DEBUG "accept the conditions of refund popup" [];
            Until (TIMEOUT cfg) visibility_of_all_elements_located
              PRIMARY_BUTTON;
            Log DEBUG "no refund conditions popup to accept" []])
  end /\
  exists w' t,
    refund_notice cfg w = (Done tt, w', t) /\
    (refund_notice cfg ;; confirmation cfg) w
      = prepend t (confirmation cfg w').
Proof.
  assert (Hcases :
    match poll_all (TIMEOUT cfg) PRIMARY_BUTTON w with
    | (_ :: second :: _, w1) =>
        refund_notice cfg w
          = (Done tt, command (Click second) w1,
             [Log DEBUG "accept the conditions of refund popup" [];
              Until (TIMEOUT cfg) visibility_of_all_elements_located
                PRIMARY_BUTTON;
              Click second])
    | (_, w1) =>
        refund_notice cfg w
          = (Done tt, w1,
             [Log DEBUG "accept the conditions of refund popup" [];
              Until (TIMEOUT cfg) visibility_of_all_elements_located
                PRIMARY_BUTTON;
              Log DEBUG "no refund conditions popup to accept" []])
    end).
  { unfold refund_notice, try_except, bind, log, emit, until_all, getitem,
      click, perform.
    simpl.
    destruct (poll_all (TIMEOUT cfg) PRIMARY_BUTTON w)
      as [[|first [|second rest]] w1]; reflexivity. }
  split; [exact Hcases |].
  destruct (poll_all (TIMEOUT cfg) PRIMARY_BUTTON w)
    as [[|first [|second rest]] w1];
    eexists _, _; (split; [exact Hcases |]);
    by rewrite (bind_done _ _ _ _ _ _ Hcases).
Qed.

End PurchaseFlow.

(** Walks a computation of the script down to its primitive calls. *)
Ltac head_of t :=
  lazymatch t with
  | ?f _ => head_of f
  | _ => t
  end.

Ltac emits_walk :=
  repeat
    (intros;
     lazymatch goal with
     | |- emits _ (bind _ _) => apply emits_bind
     | |- emits _ (try_except _ _ _) => apply emits_try
     | |- emits _ (try_except2 _ _ _ _ _) => apply emits_try2
     | |- emits _ (for_each _ _) => apply emits_for_each
     | |- emits _ (for_range _ _) => apply emits_for_each
     | |- emits _ (comprehension _ _) => apply emits_comprehension
     | |- emits _ (ret _) => apply emits_ret
     | |- emits _ (raise _) => apply emits_raise
     | |- emits _ (exit _) => apply emits_raise
     | |- emits _ (log _ _ _) => apply emits_emit; reflexivity
     | |- emits _ (emit _) => apply emits_emit; reflexivity
     | |- emits _ (perform _) => apply emits_perform; reflexivity
     | |- emits _ (click _) => apply emits_perform; reflexivity
     | |- emits _ (send_keys _ _) => apply emits_perform; reflexivity
     | |- emits _ (until _ _ _) => apply emits_until; reflexivity
     | |- emits _ (until_all _ _) => apply emits_until_all; reflexivity
     | |- emits _ (find _) => apply emits_find; reflexivity
     | |- emits _ (text_of _) => apply emits_text_of
     | |- emits _ (now _) => apply emits_now
     | |- emits _ (set_logger_level _) => apply emits_set_level; reflexivity
     | |- emits _ (add_cookie_call _ _ _) => apply emits_add_cookie; reflexivity
     | |- emits _ json_load_cookies => apply emits_json_load; reflexivity
     | |- emits _ (if ?b then _ else _) => destruct b
     | |- emits _ (match ?x with _ => _ end) => destruct x
     | |- emits _ ?m => let h := head_of m in unfold h
     end).

(** ** Authentication *)

Section Authentication.

Context {W : Type} {host : Host W}.

Lemma purchase_steps_quiet cfg :
  emits (fun ev => negb (is_fatal_log ev)) (purchase_steps cfg).
Proof. emits_walk. Qed.

Lemma enumerate_quiet cfg :
  emits (fun ev => negb (is_fatal_log ev)) (enumerate cfg).
Proof. emits_walk. Qed.

Lemma fatal_check_safe cfg p : safe (fatal_check cfg p).
Proof.
  destruct p; simpl; [unfold captcha_check | unfold credentials_check];
    (apply safe_try; [reflexivity | | intros; apply safe_quiet; emits_walk]);
    (apply safe_bind; [apply safe_quiet; emits_walk | intros _]);
    (apply safe_bind; [apply safe_quiet; emits_walk | intros _]).
  - apply (safe_exit captcha_found).
  - apply (safe_exit credentials_invalid).
Qed.

Lemma login_safe cfg : safe (login cfg).
Proof.
  unfold login.
  apply safe_bind; [apply safe_quiet; emits_walk | intros _].
  apply safe_bind; [apply (fatal_check_safe cfg captcha_found) | intros _].
  apply safe_bind; [apply safe_quiet; emits_walk | intros _].
  apply (fatal_check_safe cfg credentials_invalid).
Qed.

Lemma execute_safe cfg : safe (execute cfg).
Proof.
  unfold execute.
  apply safe_bind; [apply safe_quiet; emits_walk | intros _].
  apply safe_bind; [apply safe_quiet; emits_walk | intros _].
  apply safe_bind; [apply safe_quiet; emits_walk | intros _].
  apply safe_bind.
  - apply safe_try; [reflexivity | apply safe_quiet; emits_walk |].
    intros _. apply login_safe.
  - intros _. apply safe_bind; [apply safe_quiet; apply enumerate_quiet |].
    intros returned. apply safe_quiet. emits_walk.
Qed.

Lemma repeat_cycles_safe cfg fuel : safe (repeat_cycles cfg fuel).
Proof.
  induction fuel as [|fuel IH]; simpl;
    destruct (0 <=? SLEEPTIME cfg)%Z;
    try solve [apply safe_quiet; emits_walk].
  apply safe_bind; [apply safe_quiet; emits_walk | intros _].
  apply safe_bind; [apply safe_quiet; emits_walk | intros _].
  apply safe_bind; [apply execute_safe | intros _; exact IH].
Qed.

Lemma main_safe env fuel : safe (main env fuel).
Proof.
  unfold main. destruct (read_env_variables env) as [cfg|e];
    [|apply safe_quiet; emits_walk].
  apply safe_bind; [apply safe_quiet; emits_walk | intros _].
  apply safe_bind; [apply safe_quiet; emits_walk | intros _].
  destruct (_ || _)%bool; [apply safe_quiet; emits_walk |].
  apply safe_bind; [apply safe_quiet; emits_walk | intros _].
  unfold run_loop.
  apply safe_bind; [apply execute_safe | intros _; apply repeat_cycles_safe].
Qed.

(** C6.  On both authentication-fatal paths (the captcha frame is located;
    the invalid-credentials message is visible) [login] logs at critical
    level, closes the browser and raises [SystemExit(0)] without doing
    anything more; and in every run of the whole program a fatal entry is
    followed by the closing of the browser and by nothing else, the process
    ending with exit status 0. *)
Theorem fatal_paths_exit_with_status_zero (cfg : config) (p : fatal) :
  (forall w w0 t0 el w1,
     before_check cfg p w = (Done tt, w0, t0) ->
     poll (TIMEOUT cfg) (fatal_condition p) (fatal_locator p) w0
       = (Some el, w1) ->
     login cfg w
       = (Raised (SystemExit 0), command Close w1,
          t0 ++ [Log DEBUG (fatal_announce p) [];
                 Until (TIMEOUT cfg) (fatal_condition p) (fatal_locator p);
                 Log CRITICAL (fatal_message p) [];
                 Close])) /\
  (forall env fuel w,
     In (Log CRITICAL (fatal_message p) []) (snd (main env fuel w)) ->
     fst (fst (main env fuel w)) = Raised (SystemExit 0) /\
     exists t0,
       snd (main env fuel w)
         = t0 ++ [Log CRITICAL (fatal_message p) []; Close]).
Proof.
  split.
  - intros w w0 t0 el w1 Hbefore Hpoll.
    assert (Hcheck : fatal_check cfg p w0
              = (Raised (SystemExit 0), command Close w1,
                 [Log DEBUG (fatal_announce p) [];
                  Until (TIMEOUT cfg) (fatal_condition p) (fatal_locator p);
                  Log CRITICAL (fatal_message p) [];
                  Close])).
    { destruct p; simpl in *;
        unfold captcha_check, credentials_check, try_except, bind, log, emit,
          perform, exit, raise, until; simpl; by rewrite Hpoll. }
    destruct p; simpl in *; unfold login.
    + rewrite (bind_done _ _ _ _ _ _ Hbefore).
      by rewrite (bind_raised _ _ _ _ _ _ Hcheck).
    + rewrite <- !bind_assoc.
      assert (Hpre : ((login_form cfg;; captcha_check cfg);; two_factor cfg) w
                = (Done tt, w0, t0)).
      { by rewrite bind_assoc. }
      rewrite (bind_done _ _ _ _ _ _ Hpre).
      by rewrite Hcheck.
  - intros env fuel w. apply main_safe.
Qed.

(** C2, as the code has it.  When one of the four waits of the login form
    (account menu, login method, email field, sign-in button) times out,
    the failure is logged at critical level and [login] goes on with the
    captcha check: the timeout does not end the process. *)
Theorem login_form_timeout_is_logged_and_login_goes_on (cfg : config)
    (w w' : W) (t : trace) :
  login_form_timeout cfg w w' t ->
  login_form cfg w
    = (Done tt, w', t ++ [Log CRITICAL "Unable to locate login form" []]) /\
  login cfg w
    = prepend (t ++ [Log CRITICAL "Unable to locate login form" []])
        ((captcha_check cfg ;; two_factor cfg ;; credentials_check cfg) w') /\
  exists r,
    login cfg w
      = prepend
          (t ++ [Log CRITICAL "Unable to locate login form" [];
                 Log DEBUG "Checking for captcha" [];
                 Until (TIMEOUT cfg) presence_of_element_located
                   CAPTCHA_FRAME]) r.
Proof.
  intros Ht.
  assert (Hform : login_form cfg w
            = (Done tt, w', t ++ [Log CRITICAL "Unable to locate login form" []])).
  { destruct Ht as [w1 H1 | user w1 w2 H1 H2 | user w1 method w2 w3 H1 H2 H3
                    | user w1 method w2 email w3 password w4 w5 H1 H2 H3 H4 H5];
      unfold login_form, try_except, bind, log, emit, click, send_keys,
        perform, until, find; simpl.
    - by rewrite H1.
    - rewrite H1; simpl. by rewrite H2.
    - rewrite H1; simpl. rewrite H2; simpl. by rewrite H3.
    - rewrite H1; simpl. rewrite H2; simpl. rewrite H3; simpl.
      rewrite H4; simpl. by rewrite H5. }
  assert (Hlogin : login cfg w
            = prepend (t ++ [Log CRITICAL "Unable to locate login form" []])
                ((captcha_check cfg ;; two_factor cfg ;;
                  credentials_check cfg) w')).
  { unfold login. by rewrite (bind_done _ _ _ _ _ _ Hform). }
  split; [exact Hform | split; [exact Hlogin |]].
  rewrite Hlogin.
  assert (Hcaptcha : exists r,
            captcha_check cfg w'
              = prepend [Log DEBUG "Checking for captcha" [];
                         Until (TIMEOUT cfg) presence_of_element_located
                           CAPTCHA_FRAME] r).
  { unfold captcha_check, try_except, bind, log, emit, perform, exit, raise,
      until; simpl.
    destruct (poll (TIMEOUT cfg) presence_of_element_located CAPTCHA_FRAME w')
      as [[el|] w1]; simpl; eexists (_, _, _); simpl; reflexivity. }
  destruct Hcaptcha as [[[o w1] t1] Hcaptcha]. unfold bind at 1.
  rewrite Hcaptcha. simpl.
  destruct o as [[]|e].
  - destruct ((two_factor cfg;; credentials_check cfg) w1) as [[o2 w2] t2].
    exists (o2, w2, t1 ++ t2). simpl. by rewrite <- !app_assoc.
  - exists (Raised e, w1, t1). simpl. by rewrite <- !app_assoc.
Qed.

(** C7, as the code has it.  With no one-time-password secret configured
    (the variable unset or empty) no run of [login] waits for the code
    field.  A run that the captcha check ends does not get to the code
    field either.  With a secret, a run of [login] whose login-form step
    and captcha check have ended normally waits for the code field next.
    If the wait times out, the [TimeoutException] ends [login].  If the
    field is located, the current code is computed: a secret that is not
    base32 ends [login] with a [binascii.Error] and nothing is sent;
    otherwise the code is sent, and the continue button is looked up: not
    found, the [NoSuchElementException] ends [login]; found, it is
    clicked, and only then does the check for the invalid-credentials
    message run. *)
Theorem two_factor_when_configured (env : gmap string string)
    (cfg : config) :
  read_env_variables env = Done cfg ->
  (TOTP cfg = None <->
   env !! "TOTP" = None \/ env !! "TOTP" = Some "") /\
  (TOTP cfg = None ->
   emits (fun ev => negb (is_two_factor_wait ev)) (login cfg)) /\
  (forall w w1 t1 e w2 t2,
     login_form cfg w = (Done tt, w1, t1) ->
     captcha_check cfg w1 = (Raised e, w2, t2) ->
     login cfg w = (Raised e, w2, t1 ++ t2) /\
     forallb (fun ev => negb (is_two_factor_wait ev)) (t1 ++ t2) = true) /\
  (forall secret w w1 t1 w2 t2,
     TOTP cfg = Some secret ->
     login_form cfg w = (Done tt, w1, t1) ->
     captcha_check cfg w1 = (Done tt, w2, t2) ->
     forallb (fun ev => negb (is_two_factor_wait ev)) (t1 ++ t2) = true /\
     match poll (TIMEOUT cfg) element_to_be_clickable TWO_FACTOR_CODE w2 with
     | (None, w3) =>
         login cfg w
           = (Raised TimeoutException, w3,
              t1 ++ t2 ++
              [Log DEBUG "wait for 2fa field on login page" [];
               Until (TIMEOUT cfg) element_to_be_clickable TWO_FACTOR_CODE])
     | (Some el, w3) =>
         match totp_now secret w3 with
         | None =>
             login cfg w
               = (Raised BinasciiError, w3,
                  t1 ++ t2 ++
                  [Log DEBUG "wait for 2fa field on login page" [];
                   Until (TIMEOUT cfg) element_to_be_clickable
                     TWO_FACTOR_CODE])
         | Some code =>
             match find_element CONTINUE_BUTTON
                     (command (SendKeys el code) w3) with
             | (None, w4) =>
                 login cfg w
                   = (Raised NoSuchElementException, w4,
                      t1 ++ t2 ++
                      [Log DEBUG "wait for 2fa field on login page" [];
                       Until (TIMEOUT cfg) element_to_be_clickable
                         TWO_FACTOR_CODE;
                       SendKeys el code;
                       Log DEBUG "logging in with 2FA" [];
                       FindElement CONTINUE_BUTTON])
             | (Some continue, w4) =>
                 login cfg w
                   = prepend
                       (t1 ++ t2 ++
                        [Log DEBUG "wait for 2fa field on login page" [];
                         Until (TIMEOUT cfg) element_to_be_clickable
                           TWO_FACTOR_CODE;
                         SendKeys el code;
                         Log DEBUG "logging in with 2FA" [];
                         FindElement CONTINUE_BUTTON;
                         Click continue])
                       (credentials_check cfg (command (Click continue) w4))
             end
         end
     end).
Proof.
  intros Henv.
  assert (Hquiet : forall w w1 t1 (o : outcome unit) w2 t2,
            login_form cfg w = (Done tt, w1, t1) ->
            captcha_check cfg w1 = (o, w2, t2) ->
            forallb (fun ev => negb (is_two_factor_wait ev)) (t1 ++ t2)
              = true).
  { intros w w1 t1 o w2 t2 Hform Hcaptcha. rewrite forallb_app.
    assert (H1 : emits (fun ev => negb (is_two_factor_wait ev))
                   (login_form cfg)) by emits_walk.
    assert (H2 : emits (fun ev => negb (is_two_factor_wait ev))
                   (captcha_check cfg)) by emits_walk.
    specialize (H1 w). specialize (H2 w1).
    rewrite Hform in H1. rewrite Hcaptcha in H2. simpl in *.
    by rewrite H1, H2. }
  split; [| split; [| split]].
  - unfold read_env_variables in Henv.
    destruct (getenv_int env "TIMEOUT" 20); [|done].
    destruct (getenv_int env "SLEEPTIME" (-1)); [|done].
    injection Henv as <-. simpl. unfold getenv_or.
    destruct (env !! "TOTP") as [s|] eqn:Hs; [|by split; [left|]].
    destruct (String.eqb_spec s "") as [->|Hne].
    + by split; [right|].
    + split; [done|]. intros [[=]|[= ->]]. done.
  - intros Hnone. unfold login, two_factor. rewrite Hnone. emits_walk.
  - intros w w1 t1 e w2 t2 Hform Hcaptcha.
    split; [| by apply (Hquiet w w1 t1 (Raised e) w2 t2)].
    unfold login. rewrite (bind_done _ _ _ _ _ _ Hform).
    by rewrite (bind_raised _ _ _ _ _ _ Hcaptcha).
  - intros secret w w1 t1 w2 t2 Hsecret Hform Hcaptcha.
    split; [by apply (Hquiet w w1 t1 (Done tt) w2 t2)|].
    unfold login.
    rewrite (bind_done _ _ _ _ _ _ Hform).
    rewrite (bind_done _ _ _ _ _ _ Hcaptcha).
    unfold two_factor. rewrite Hsecret.
    unfold bind, log, emit, until, now, send_keys, click, perform, find.
    simpl.
    destruct (poll (TIMEOUT cfg) element_to_be_clickable TWO_FACTOR_CODE w2)
      as [[el|] w3]; simpl; [|reflexivity].
    destruct (totp_now secret w3) as [code|]; simpl; [|reflexivity].
    destruct (find_element CONTINUE_BUTTON (command (SendKeys el code) w3))
      as [[continue|] w4]; simpl; [|reflexivity].
    destruct (credentials_check cfg (command (Click continue) w4))
      as [[o w5] t5]. simpl.
    by rewrite <- !app_assoc.
Qed.

End Authentication.

(** ** The offers *)

Section Offers.

Context {W : Type} {host : Host W}.

Lemma until_all_found timeout l w e es w1 :
  poll_all timeout l w = (e :: es, w1) ->
  until_all timeout l w
    = (Done (e :: es), w1,
       [Until timeout visibility_of_all_elements_located l]).
Proof. intros H. unfold until_all. by rewrite H. Qed.

Lemma until_all_timeout timeout l w w1 :
  poll_all timeout l w = ([], w1) ->
  until_all timeout l w
    = (Raised TimeoutException, w1,
       [Until timeout visibility_of_all_elements_located l]).
Proof. intros H. unfold until_all. by rewrite H. Qed.

(** The branch on a label that is none of the three the script knows. *)
Lemma act_on_unrecognized cfg pb name price expires w :
  text pb w <> "OWNED" -> text pb w <> "GET" ->
  text pb w <> "SEE EDITIONS" ->
  act_on_label cfg pb name price expires w
    = (Done tt, w, [Log WARNING FMT_NOT_RECOGNIZED [AStr (text pb w)]]).
Proof.
  intros H1 H2 H3. unfold act_on_label.
  rewrite bind_text_of.
  destruct (String.eqb_spec (text pb w) "OWNED"); [done|].
  rewrite bind_text_of.
  destruct (String.eqb_spec (text pb w) "GET"); [done|].
  rewrite bind_text_of.
  destruct (String.eqb_spec (text pb w) "SEE EDITIONS"); [done|].
  by rewrite bind_text_of.
Qed.

Lemma act_on_owned cfg pb name price expires w :
  text pb w = "OWNED" ->
  act_on_label cfg pb name price expires w
    = (Done tt, w, [Log INFO FMT_OWNED [AStr name; AStr price; AStr expires]]).
Proof.
  intros H. unfold act_on_label. rewrite bind_text_of. by rewrite H.
Qed.

Lemma act_on_get cfg pb name price expires w :
  text pb w = "GET" ->
  act_on_label cfg pb name price expires w
    = (log INFO FMT_OBTAINING [AStr name] ;;
       click pb ;;
       purchase_steps cfg ;;
       log INFO FMT_OBTAINED [AStr name; AStr price; AStr expires]) w.
Proof.
  intros H. unfold act_on_label. rewrite bind_text_of. rewrite H. simpl.
  rewrite bind_text_of. by rewrite H.
Qed.

(** The events of [read_offer] are log calls, a wait and lookups. *)
Lemma read_offer_no_click cfg :
  emits (fun ev => negb (is_click ev)) (read_offer cfg).
Proof. emits_walk. Qed.

(** C5.  For an offer whose purchase button bears a label that is none of
    OWNED, GET and SEE EDITIONS, the branch emits exactly one event, a
    warning; from the moment the button is located the round clicks
    nothing, so the purchase flow does not run; and the round ends
    normally with the return to the free-games page, after which the loop
    goes on with the remaining offers. *)
Theorem unrecognized_label_warns_and_moves_on (cfg : config) (i : nat)
    (remaining : list nat) (w w1 w2 w3 : W) (games : list element)
    (el purchase_button : element) (tm tr : trace)
    (name price expires : string) :
  poll_all (TIMEOUT cfg) FREE_NOW_DASH w = (games, w1) ->
  games !! i = Some el ->
  mature_content cfg (command (Click el) w1) = (Done tt, w2, tm) ->
  read_offer cfg w2 = (Done (purchase_button, name, price, expires), w3, tr) ->
  text purchase_button w3 <> "OWNED" ->
  text purchase_button w3 <> "GET" ->
  text purchase_button w3 <> "SEE EDITIONS" ->
  let warning :=
    Log WARNING FMT_NOT_RECOGNIZED [AStr (text purchase_button w3)] in
  let round :=
    [Log DEBUG "wait for and get all free games available" [];
     Until (TIMEOUT cfg) visibility_of_all_elements_located FREE_NOW_DASH;
     Click el] ++ tm ++ tr ++ [warning; Get FREE_GAMES_PAGE_URL] in
  act_on_label cfg purchase_button name price expires w3
    = (Done tt, w3, [warning]) /\
  forallb (fun ev => negb (is_click ev))
    (tr ++ [warning; Get FREE_GAMES_PAGE_URL]) = true /\
  offer cfg i w = (Done tt, command (Get FREE_GAMES_PAGE_URL) w3, round) /\
  for_each (i :: remaining) (offer cfg) w
    = prepend round
        (for_each remaining (offer cfg) (command (Get FREE_GAMES_PAGE_URL) w3)).
Proof.
  intros Hgames Hel Hmature Hread H1 H2 H3 warning round.
  assert (Hact := act_on_unrecognized cfg purchase_button name price expires
                    w3 H1 H2 H3).
  assert (Hoffer : offer cfg i w
            = (Done tt, command (Get FREE_GAMES_PAGE_URL) w3, round)).
  { unfold offer. rewrite bind_log.
    destruct games as [|g gs]; [done|].
    rewrite (bind_done _ _ _ _ _ _ (until_all_found _ _ _ _ _ _ Hgames)).
    unfold getitem. rewrite Hel, bind_ret, bind_click.
    rewrite (bind_done _ _ _ _ _ _ Hmature).
    rewrite (bind_done _ _ _ _ _ _ Hread).
    rewrite (bind_done _ _ _ _ _ _ Hact).
    unfold perform. simpl. subst round. simpl.
    by rewrite <- ?app_assoc. }
  split; [exact Hact | split; [| split; [exact Hoffer |]]].
  - rewrite forallb_app. pose proof (read_offer_no_click cfg w2) as Hr.
    rewrite Hread in Hr. simpl in Hr. by rewrite Hr.
  - simpl. by rewrite (bind_done _ _ _ _ _ _ Hoffer).
Qed.

(** The cookies banner: a timeout of the wait is not what the handler
    catches. *)
Lemma cookies_banner_timeout_escapes cfg w w1 :
  poll (TIMEOUT cfg) element_to_be_clickable COOKIES_BANNER w = (None, w1) ->
  cookies_banner cfg w
    = (Raised TimeoutException, w1,
       [Log DEBUG "close the cookies banner" [];
        Until (TIMEOUT cfg) element_to_be_clickable COOKIES_BANNER]).
Proof.
  intros H. unfold cookies_banner, try_except, bind, log, emit, until. simpl.
  by rewrite H.
Qed.

(** The editions loop: a round never gets to read a label. *)
Lemma edition_never_classifies cfg name titles t w :
  exists e w1,
    edition cfg name titles t w
      = (Raised e, w1,
         [Until (TIMEOUT cfg) visibility_of_all_elements_located
            EDITIONS_BUTTONS]) /\
    (e = TimeoutException \/ e = TypeError).
Proof.
  unfold edition, until_on, until_all, bind, getitem, raise. simpl.
  destruct (poll_all (TIMEOUT cfg) EDITIONS_BUTTONS w) as [[|b bs] w1];
    simpl; eauto.
Qed.

(** [try] around a block that starts with a log call. *)
Lemma try_log {A} lvl fmt args (m : M W A) classes handler w :
  try_except (log lvl fmt args ;; m) classes handler w
    = prepend [Log lvl fmt args] (try_except m classes handler w).
Proof.
  unfold try_except, bind, log, emit. simpl.
  destruct (m w) as [[[a|e] w1] t1]; simpl; [reflexivity|].
  destruct (existsb (isinstance e) classes); [|reflexivity].
  by destruct (handler e w1) as [[o w2] t2].
Qed.

Lemma actions_app t1 t2 : actions (t1 ++ t2) = actions t1 ++ actions t2.
Proof. apply omap_app. Qed.

Lemma actions_none t :
  forallb (fun ev => negb (is_action ev)) t = true -> actions t = [].
Proof.
  induction t as [|ev t IH]; simpl; [done|].
  intros [Hev Ht]%andb_prop. unfold is_action in Hev.
  destruct (action_of ev); [done | by apply IH].
Qed.

(** The agreement step always ends normally, and holds the one mark of the
    purchase flow. *)
Lemma license_agreement_marks cfg (w : W) :
  exists w' t,
    license_agreement cfg w
      = (Done tt, w', Log DEBUG "find and accept license agreement" [] :: t) /\
    actions t = [].
Proof.
  unfold license_agreement. rewrite try_log.
  assert (Hq : emits (fun ev => negb (is_action ev))
                 (try_except
                    (el <- until cfg visibility_of_element_located AGREE ;;
                     click el ;;
                     el <- until cfg visibility_of_element_located
                             ACCEPT_BUTTON ;;
                     click el ;;
                     log DEBUG "find and clicking again the purchase button" [] ;;
                     el <- until cfg visibility_of_element_located
                             PURCHASE_CTA_BUTTON ;;
                     click el)
                    [TimeoutException]
                    (fun _ => log DEBUG "no license agreement found" [])))
    by emits_walk.
  specialize (Hq w). revert Hq.
  unfold try_except, bind, log, emit, until, click, perform. simpl.
  destruct (poll (TIMEOUT cfg) visibility_of_element_located AGREE w)
    as [[a|] w1]; simpl.
  - destruct (poll (TIMEOUT cfg) visibility_of_element_located ACCEPT_BUTTON
                (command (Click a) w1)) as [[b|] w2]; simpl.
    + destruct (poll (TIMEOUT cfg) visibility_of_element_located
                  PURCHASE_CTA_BUTTON (command (Click b) w2))
        as [[c|] w3]; simpl;
        intros Hq; eexists _, _; (split; [reflexivity|]);
        by apply actions_none.
    + intros Hq. eexists _, _. split; [reflexivity|]. by apply actions_none.
  - intros Hq. eexists _, _. split; [reflexivity|]. by apply actions_none.
Qed.

(** A purchase flow that ends normally holds its one mark. *)
Lemma purchase_steps_one_mark cfg (w w' : W) t :
  purchase_steps cfg w = (Done tt, w', t) -> actions t = [Purchase].
Proof.
  unfold purchase_steps.
  destruct (license_agreement_marks cfg w) as (w1 & t1 & H1 & Ha1).
  rewrite (bind_done _ _ _ _ _ _ H1).
  assert (Hq : emits (fun ev => negb (is_action ev))
                 (primary_purchase cfg ;; refund_notice cfg ;;
                  confirmation cfg)) by emits_walk.
  specialize (Hq w1).
  destruct ((primary_purchase cfg;; refund_notice cfg;; confirmation cfg) w1)
    as [[o w2] t2].
  simpl in *. intros [= _ _ <-].
  change (Log DEBUG "find and accept license agreement" [] :: t1 ++ t2)
    with ([Log DEBUG "find and accept license agreement" []] ++ t1 ++ t2).
  by rewrite !actions_app, Ha1, (actions_none _ Hq).
Qed.

(** The branch on a label other than SEE EDITIONS, when it ends normally,
    has performed the one action for the label. *)
Lemma act_on_label_one_action cfg purchase_button name price expires
    (w w' : W) t :
  text purchase_button w <> "SEE EDITIONS" ->
  act_on_label cfg purchase_button name price expires w = (Done tt, w', t) ->
  actions t = [action_for (text purchase_button w)].
Proof.
  intros He. unfold action_for.
  destruct (String.eqb_spec (text purchase_button w) "OWNED") as [Ho|Ho].
  { rewrite (act_on_owned _ _ _ _ _ _ Ho). by intros [= _ <-]. }
  destruct (String.eqb_spec (text purchase_button w) "GET") as [Hg|Hg].
  { rewrite (act_on_get _ _ _ _ _ _ Hg).
    rewrite bind_log, bind_click. intros H.
    destruct ((purchase_steps cfg;;
               log INFO FMT_OBTAINED [AStr name; AStr price; AStr expires])
                (command (Click purchase_button) w)) as [[o w1] t1] eqn:Hrest.
    simpl in H. injection H as -> -> <-.
    apply bind_done_inv in Hrest as ([] & w2 & t2 & t3 & H2 & H3 & ->).
    unfold log, emit in H3. injection H3 as _ <-.
    apply purchase_steps_one_mark in H2.
    change (actions
              ([Log INFO FMT_OBTAINING [AStr name]; Click purchase_button]
               ++ t2
               ++ [Log INFO FMT_OBTAINED
                     [AStr name; AStr price; AStr expires]])
            = [Purchase]).
    rewrite !actions_app, H2. reflexivity. }
  rewrite (act_on_unrecognized _ _ _ _ _ _ Ho Hg He). by intros [= _ <-].
Qed.

(** A round of the loop along which the store cooperates. *)
Lemma offer_round cfg i (w w1 w2 w3 w4 : W) games el tm purchase_button name
    price expires tr ta :
  poll_all (TIMEOUT cfg) FREE_NOW_DASH w = (games, w1) ->
  games !! i = Some el ->
  mature_content cfg (command (Click el) w1) = (Done tt, w2, tm) ->
  read_offer cfg w2 = (Done (purchase_button, name, price, expires), w3, tr) ->
  text purchase_button w3 <> "SEE EDITIONS" ->
  act_on_label cfg purchase_button name price expires w3 = (Done tt, w4, ta) ->
  round cfg i w (command (Get FREE_GAMES_PAGE_URL) w4)
    ([Log DEBUG "wait for and get all free games available" [];
      Until (TIMEOUT cfg) visibility_of_all_elements_located FREE_NOW_DASH;
      Click el] ++ tm ++ tr ++ ta ++ [Get FREE_GAMES_PAGE_URL]).
Proof.
  intros H1 Hel Hm Hr Hlabel Ha.
  exists games, w1, el, w2, tm, purchase_button, name, price, expires, w3, tr,
    w4, ta.
  assert (Hoffer : offer cfg i w
            = (Done tt, command (Get FREE_GAMES_PAGE_URL) w4,
               [Log DEBUG "wait for and get all free games available" [];
                Until (TIMEOUT cfg) visibility_of_all_elements_located
                  FREE_NOW_DASH;
                Click el] ++ tm ++ tr ++ ta ++ [Get FREE_GAMES_PAGE_URL])).
  { unfold offer. rewrite bind_log.
    destruct games as [|g gs]; [done|].
    rewrite (bind_done _ _ _ _ _ _ (until_all_found _ _ _ _ _ _ H1)).
    unfold getitem. rewrite Hel, bind_ret, bind_click.
    rewrite (bind_done _ _ _ _ _ _ Hm), (bind_done _ _ _ _ _ _ Hr).
    rewrite (bind_done _ _ _ _ _ _ Ha).
    unfold perform. simpl. by rewrite <- ?app_assoc. }
  refine (conj H1 (conj Hel (conj Hm (conj Hr (conj Ha (conj eq_refl
            (conj Hoffer (conj eq_refl _)))))))).
  assert (Hqm : emits (fun ev => negb (is_requery ev) && negb (is_action ev))
                  (mature_content cfg)) by emits_walk.
  assert (Hqr : emits (fun ev => negb (is_requery ev) && negb (is_action ev))
                  (read_offer cfg)) by emits_walk.
  assert (Hqa : emits (fun ev => negb (is_requery ev))
                  (act_on_label cfg purchase_button name price expires))
    by emits_walk.
  specialize (Hqm (command (Click el) w1)). specialize (Hqr w2).
  specialize (Hqa w3). rewrite Hm in Hqm. rewrite Hr in Hqr.
  rewrite Ha in Hqa. simpl in Hqm, Hqr, Hqa.
  rewrite forallb_forall in Hqm, Hqr.
  split; [| split; [| split; [exact Hlabel |]]].
  - rewrite !forallb_app, Hqa. simpl.
    rewrite !andb_true_r. apply andb_true_intro. split.
    + apply forallb_forall. intros ev Hev.
      by destruct (andb_prop _ _ (Hqm ev Hev)).
    + apply forallb_forall. intros ev Hev.
      by destruct (andb_prop _ _ (Hqr ev Hev)).
  - rewrite actions_app.
    rewrite (actions_none tm), (actions_none tr); [done | |].
    + apply forallb_forall. intros ev Hev.
      by destruct (andb_prop _ _ (Hqr ev Hev)).
    + apply forallb_forall. intros ev Hev.
      by destruct (andb_prop _ _ (Hqm ev Hev)).
  - by apply (act_on_label_one_action _ _ _ _ _ _ _ _ Hlabel Ha).
Qed.

Lemma rounds_from cfg i count (w : W) :
  cooperates cfg i count w ->
  exists w' t,
    for_each (seq i count) (offer cfg) w = (Done tt, w', t) /\
    rounds cfg i count w w' t.
Proof.
  induction 1 as [i w | i count w games w1 el w2 tm purchase_button name price
                          expires w3 tr w4 ta H1 Hel Hm Hr Hlabel Ha _ IH].
  - exists w, []. split; [reflexivity | constructor].
  - destruct IH as (w' & ts & Hrest & Hrounds).
    pose proof (offer_round _ _ _ _ _ _ _ _ _ _ _ _ _ _ _ _ H1 Hel Hm Hr
                  Hlabel Ha) as Hround.
    assert (Hoffer := Hround).
    destruct Hoffer as (? & ? & ? & ? & ? & ? & ? & ? & ? & ? & ? & ? & ?
                        & _ & _ & _ & _ & _ & _ & Hoffer & _).
    eexists w', _. split; cycle 1.
    { exact (rounds_next _ _ _ _ _ _ _ _ Hround Hrounds). }
    cbn [seq for_each].
    rewrite (bind_done _ _ _ _ _ _ Hoffer), Hrest. reflexivity.
Qed.

Lemma no_requery_filter t :
  forallb (fun ev => negb (is_requery ev)) t = true ->
  List.filter is_requery t = [].
Proof.
  induction t as [|ev t IH]; simpl; [done|].
  intros [Hev Ht]%andb_prop. destruct (is_requery ev); [done | by apply IH].
Qed.

Lemma round_counts cfg i w w' t :
  round cfg i w w' t ->
  length (actions t) = 1%nat /\ length (List.filter is_requery t) = 1%nat.
Proof.
  intros (games & w1 & el & w2 & tm & pb & name & price & expires & w3 & tr
          & w4 & ta & _ & _ & _ & _ & _ & _ & _ & -> & Hq & Hb & _ & Ha).
  split.
  - rewrite actions_app in Hb. apply app_eq_nil in Hb as [Hm Hr].
    rewrite !actions_app, Hm, Hr, Ha. reflexivity.
  - rewrite List.filter_app, (no_requery_filter _ Hq). reflexivity.
Qed.

Lemma rounds_counts cfg i count w w' t :
  rounds cfg i count w w' t ->
  length (actions t) = count /\ length (List.filter is_requery t) = count.
Proof.
  induction 1 as [|i count w w1 w2 t ts Hround _ [IHa IHq]]; [done|].
  destruct (round_counts _ _ _ _ _ Hround) as [Ha Hq].
  rewrite actions_app, List.filter_app, !length_app. lia.
Qed.

(** C4, as the code has it.  Let the first query of the free games yield a
    list of length N and the cookies banner be closed.  If the store
    cooperates along the N rounds that follow (in each round, in the world
    the round has reached: the query yields a list with an element at the
    index of the round, the controls of the offer are found, the label
    does not read SEE EDITIONS, and the action ends normally, which for GET
    means that the purchase flow gets its primary button and its
    confirmation), the enumerator runs N rounds, for the indices 0 to N-1
    in order: each queries the offers once, clicks the one at its index and
    performs exactly one action, the skip for the label OWNED, the purchase
    for GET, the warning for any other label.  The branch for OWNED emits
    its one log entry and nothing else, so runs no purchase flow. *)
Theorem enumerator_one_action_per_offer (cfg : config) (w w1 w2 : W)
    (games : list element) (banner : element) :
  poll_all (TIMEOUT cfg) FREE_NOW w = (games, w1) ->
  games <> [] ->
  poll (TIMEOUT cfg) element_to_be_clickable COOKIES_BANNER w1
    = (Some banner, w2) ->
  cooperates cfg 0 (length games) (command (Click banner) w2) ->
  (forall purchase_button name price expires w0,
     text purchase_button w0 = "OWNED" ->
     act_on_label cfg purchase_button name price expires w0
       = (Done tt, w0,
          [Log INFO FMT_OWNED [AStr name; AStr price; AStr expires]])) /\
  exists w' t,
    enumerate cfg w
      = (Done false, w',
         [Log DEBUG "wait for and get all free games available" [];
          Until (TIMEOUT cfg) visibility_of_all_elements_located FREE_NOW;
          Log DEBUG "close the cookies banner" [];
          Until (TIMEOUT cfg) element_to_be_clickable COOKIES_BANNER;
          Click banner]
         ++ t ++ [Log INFO "all games processed" []]) /\
    rounds cfg 0 (length games) (command (Click banner) w2) w' t /\
    length (List.filter is_requery t) = length games /\
    length (actions t) = length games.
Proof.
  intros Hgames Hne Hbanner Hcoop. split.
  { intros. by apply act_on_owned. }
  destruct (rounds_from cfg 0 (length games) _ Hcoop)
    as (w' & t & Hloop & Hrounds).
  exists w', t.
  destruct (rounds_counts _ _ _ _ _ _ Hrounds) as [Ha Hq].
  split; [| done].
  assert (Hfree : free_games cfg w
            = (Done (Some games), w1,
               [Log DEBUG "wait for and get all free games available" [];
                Until (TIMEOUT cfg) visibility_of_all_elements_located
                  FREE_NOW])).
  { unfold free_games, try_except, bind, log, emit, until_all, ret. simpl.
    rewrite Hgames. by destruct games. }
  assert (Hclose : cookies_banner cfg w1
            = (Done tt, command (Click banner) w2,
               [Log DEBUG "close the cookies banner" [];
                Until (TIMEOUT cfg) element_to_be_clickable COOKIES_BANNER;
                Click banner])).
  { unfold cookies_banner, try_except, bind, log, emit, until, click, perform.
    simpl. by rewrite Hbanner. }
  unfold enumerate. erewrite try_done; [reflexivity|].
  rewrite (bind_done _ _ _ _ _ _ Hfree).
  rewrite (bind_done _ _ _ _ _ _ Hclose).
  unfold for_range. rewrite (bind_done _ _ _ _ _ _ Hloop).
  unfold bind, log, emit, ret. simpl. by rewrite <- ?app_assoc.
Qed.

End Offers.

(** ** The run loop *)

Section RunLoop.

Context {W : Type} {host : Host W}.




End RunLoop.


(** ** Runs on the scripted store *)

Section Runs.

Import Store.

(** C3 on a store with no cookies banner.  The wait for the close button
    times out; the [TimeoutException] is not the [NoSuchElementException]
    the handler of the banner names, so it reaches the handler of the
    cycle: it is logged at critical level, no offer is processed, and the
    debug entry of the banner is never written. *)
Theorem cookies_banner_timeout_ends_the_cycle :
  execute (host := host no_banner) settings 0%nat
    = (Done tt, 0%nat,
       [Chrome "/usr/bin/chromedriver"
          ["--no-sandbox"; "--disable-dev-shm-usage"; "--headless"];
        Get FREE_GAMES_PAGE_URL;
        Log DEBUG "trying to load cookies" [];
        OpenFile "cookies.json";
        Log CRITICAL "cookies file not found" [];
        FindElement LOG_OUT;
        Log DEBUG "wait for and get all free games available" [];
        Until 20 visibility_of_all_elements_located FREE_NOW;
        Log DEBUG "close the cookies banner" [];
        Until 20 element_to_be_clickable COOKIES_BANNER;
        Log CRITICAL "%s" [ATraceback TimeoutException];
        Close]).
Proof. vm_compute. reflexivity. Qed.

(** C1 on the store of the scenario of the specification.  The first two
    offers are skipped and purchased.  For the third the titles of the two
    sub-items are read, and in the first round of the loop the wait for
    their buttons is the last thing that happens: the subscript is applied
    to the [WebDriverWait] object, which raises a [TypeError] that no
    handler catches.  No sub-item is classified, and the purchase flow has
    run once, not twice. *)
Theorem editions_loop_stops_at_first_sub_item :
  let run := execute (host := host three_offers) settings 0%nat in
  fst (fst run) = Raised TypeError /\
  actions (snd run) = [Skip; Purchase] /\
  last_events 3 (snd run)
    = [Log DEBUG FMT_EDITIONS [AStr "C"];
       Until 20 visibility_of_all_elements_located EDITIONS_TITLES;
       Until 20 visibility_of_all_elements_located EDITIONS_BUTTONS] /\
  forallb
    (fun ev =>
       match ev with
       | Log INFO fmt _ =>
           negb (String.eqb fmt FMT_EDITION_OWNED
                 || String.eqb fmt FMT_EDITION_OBTAINED)
       | ExecuteScript _ => false
       | _ => true
       end) (snd run) = true.
Proof. vm_compute. repeat split; reflexivity. Qed.

(** C2 as stated fails.  On a store that shows no login form the first
    wait of [login] times out and the failure is logged at critical level,
    but nothing ends the process: [login] goes through the captcha and the
    credentials checks, reports a success and returns, and the program
    goes on to the offers and ends normally. *)
Lemma login_form_timeout_does_not_end_the_process :
  login (host := host no_login_form) settings 0%nat
    = (Done tt, 0%nat,
       [Log DEBUG "find and click on login button" [];
        Until 20 element_to_be_clickable USER_MENU;
        Log CRITICAL "Unable to locate login form" [];
        Log DEBUG "Checking for captcha" [];
        Until 20 presence_of_element_located CAPTCHA_FRAME;
        Log DEBUG "captcha not detected." [];
        Log DEBUG "search for wrong credentials message" [];
        Until 20 visibility_of_element_located INVALID_CREDENTIALS;
        Log DEBUG "login succeeded" []]) /\
  let run := main (host := host no_login_form) environment 0 0%nat in
  fst (fst run) = Done (Some tt) /\
  last_events 2 (snd run) = [Log INFO "all games processed" []; Close].
Proof. vm_compute. repeat split; reflexivity. Qed.

(** C7 as stated fails.  With a secret configured, on a store that answers
    the sign-in with a captcha, [login] ends the process at the captcha
    check and never waits for the code field. *)
Lemma captcha_comes_before_two_factor :
  TOTP with_secret = Some "JBSWY3DPEHPK3PXP" /\
  let run := login (host := host with_captcha) with_secret 0%nat in
  fst (fst run) = Raised (SystemExit 0) /\
  existsb is_two_factor_wait (snd run) = false.
Proof. vm_compute. repeat split; reflexivity. Qed.

(** C4 as stated fails.  On a store of two offers whose purchase flow
    finds no primary button, the timeout ends the cycle in the first
    round: one offer is visited, not two.  On a store whose only offer
    bears the label SEE EDITIONS the offer is visited and gets none of the
    three actions. *)
Lemma enumerator_can_stop_early_or_take_no_action :
  (let run := execute (host := host no_primary_button) settings 0%nat in
   length (offers no_primary_button) = 2%nat /\
   fst (fst run) = Done tt /\
   length (List.filter is_requery (snd run)) = 1%nat /\
   last_events 3 (snd run)
     = [Until 20 visibility_of_element_located PRIMARY_BUTTON;
        Log CRITICAL "%s" [ATraceback TimeoutException];
        Close]) /\
  (let run := execute (host := host one_with_editions) settings 0%nat in
   length (offers one_with_editions) = 1%nat /\
   length (List.filter is_requery (snd run)) = 1%nat /\
   actions (snd run) = []).
Proof. vm_compute. repeat split; reflexivity. Qed.

(** The store that shows the agreement control and no Accept button: the
    timeout comes after the click on the agreement control. *)
Lemma agreement_timeouts_share_one_handler_witness :
  agreement_timeout (host := host agreement_without_accept) settings 0%nat
    0%nat
    [Log DEBUG "find and accept license agreement" [];
     Until 20 visibility_of_element_located AGREE;
     Click 810%nat;
     Until 20 visibility_of_element_located ACCEPT_BUTTON] /\
  license_agreement (host := host agreement_without_accept) settings 0%nat
    = (Done tt, 0%nat,
       [Log DEBUG "find and accept license agreement" [];
        Until 20 visibility_of_element_located AGREE;
        Click 810%nat;
        Until 20 visibility_of_element_located ACCEPT_BUTTON;
        Log DEBUG "no license agreement found" []]).
Proof.
  assert (H : agreement_timeout (host := host agreement_without_accept)
                settings 0%nat 0%nat
                [Log DEBUG "find and accept license agreement" [];
                 Until 20 visibility_of_element_located AGREE;
                 Click 810%nat;
                 Until 20 visibility_of_element_located ACCEPT_BUTTON]).
  { apply (timeout_at_accept (host := host agreement_without_accept)
             settings 0%nat 810%nat 0%nat 0%nat); reflexivity. }
  split; [exact H|].
  exact (proj1 (agreement_timeouts_share_one_handler settings 0%nat 0%nat _ H)).
Defined.

(** The store that answers the sign-in with a captcha. *)
Lemma fatal_paths_exit_with_status_zero_witness :
  login (host := host with_captcha) settings 0%nat
    = (Raised (SystemExit 0), 0%nat,
       [Log DEBUG "find and click on login button" [];
        Until 20 element_to_be_clickable USER_MENU;
        Click 870%nat;
        Log DEBUG "find and click on EpicGame login method" [];
        Until 20 element_to_be_clickable LOGIN_WITH_EPIC;
        Click 871%nat;
        Log DEBUG "wait for email field on login page" [];
        Until 20 element_to_be_clickable EMAIL_FIELD;
        SendKeys 872%nat "user@example.com";
        FindElement PASSWORD_FIELD;
        SendKeys 873%nat "secret";
        Until 20 element_to_be_clickable SIGN_IN_BUTTON;
        Click 874%nat;
        Log DEBUG "Checking for captcha" [];
        Until 20 presence_of_element_located CAPTCHA_FRAME;
        Log CRITICAL "Captcha found. Can't procede any further." [];
        Close]) /\
  fst (fst (main (host := host with_captcha) environment 0 0%nat))
    = Raised (SystemExit 0).
Proof.
  pose proof (fatal_paths_exit_with_status_zero (host := host with_captcha)
                settings captcha_found) as [Hlogin Hmain].
  split.
  - exact (Hlogin 0%nat 0%nat _ 830%nat 0%nat eq_refl eq_refl).
  - apply (Hmain environment 0%nat 0%nat). vm_compute. tauto.
Defined.

(** The store that shows no login form: the first wait times out. *)
Lemma login_form_timeout_is_logged_and_login_goes_on_witness :
  login_form_timeout (host := host no_login_form) settings 0%nat 0%nat
    [Log DEBUG "find and click on login button" [];
     Until 20 element_to_be_clickable USER_MENU] /\
  login_form (host := host no_login_form) settings 0%nat
    = (Done tt, 0%nat,
       [Log DEBUG "find and click on login button" [];
        Until 20 element_to_be_clickable USER_MENU;
        Log CRITICAL "Unable to locate login form" []]).
Proof.
  assert (H : login_form_timeout (host := host no_login_form) settings 0%nat
                0%nat
                [Log DEBUG "find and click on login button" [];
                 Until 20 element_to_be_clickable USER_MENU]).
  { apply (timeout_at_user_menu (host := host no_login_form)); reflexivity. }
  split; [exact H|].
  exact (proj1 (login_form_timeout_is_logged_and_login_goes_on settings
                  0%nat 0%nat _ H)).
Defined.

(** An environment with a secret, and the store that asks for the code. *)
Lemma two_factor_when_configured_witness :
  read_env_variables (host := host with_two_factor) environment_with_secret
    = Done with_secret /\
  login (host := host with_two_factor) with_secret 0%nat
    = prepend
        ([Log DEBUG "find and click on login button" [];
          Until 20 element_to_be_clickable USER_MENU;
          Click 870%nat;
          Log DEBUG "find and click on EpicGame login method" [];
          Until 20 element_to_be_clickable LOGIN_WITH_EPIC;
          Click 871%nat;
          Log DEBUG "wait for email field on login page" [];
          Until 20 element_to_be_clickable EMAIL_FIELD;
          SendKeys 872%nat "user@example.com";
          FindElement PASSWORD_FIELD;
          SendKeys 873%nat "secret";
          Until 20 element_to_be_clickable SIGN_IN_BUTTON;
          Click 874%nat]
         ++ [Log DEBUG "Checking for captcha" [];
             Until 20 presence_of_element_located CAPTCHA_FRAME;
             Log DEBUG "captcha not detected." []]
         ++ [Log DEBUG "wait for 2fa field on login page" [];
             Until 20 element_to_be_clickable TWO_FACTOR_CODE;
             SendKeys 840%nat "123456";
             Log DEBUG "logging in with 2FA" [];
             FindElement CONTINUE_BUTTON;
             Click 841%nat])
        (credentials_check (host := host with_two_factor) with_secret 0%nat).
Proof.
  assert (H : read_env_variables (host := host with_two_factor)
                environment_with_secret = Done with_secret)
    by (vm_compute; reflexivity).
  split; [exact H|].
  exact (proj2 (proj2 (proj2 (proj2 (two_factor_when_configured
                                       (host := host with_two_factor)
                                       environment_with_secret with_secret
                                       H)))
                  "JBSWY3DPEHPK3PXP" 0%nat 0%nat _ 0%nat _
                  eq_refl eq_refl eq_refl)).
Defined.

(** The third offer of the store with no label SEE EDITIONS bears the
    label COMING SOON. *)
Lemma unrecognized_label_warns_and_moves_on_witness :
  text (Host := host simple_offers) 202%nat 2%nat = "COMING SOON" /\
  offer (host := host simple_offers) settings 2 0%nat
    = (Done tt, 2%nat,
       [Log DEBUG "wait for and get all free games available" [];
        Until 20 visibility_of_all_elements_located FREE_NOW_DASH;
        Click 102%nat;
        Log DEBUG "bypass mature content block" [];
        Until 20 visibility_of_element_located MATURE_CONTENT;
        Log DEBUG "no mature content block to bypass" [];
        Log DEBUG "find the purchase button" [];
        Until 20 visibility_of_element_located PURCHASE_CTA_BUTTON;
        Log DEBUG "extract game title" [];
        FindElement GAME_TITLE;
        Log DEBUG "extract game price" [];
        FindElement GAME_PRICE;
        Log DEBUG "extract sales end date" [];
        FindElement SALE_ENDS;
        Log WARNING FMT_NOT_RECOGNIZED [AStr "COMING SOON"];
        Get FREE_GAMES_PAGE_URL]).
Proof.
  split; [reflexivity|].
  pose proof (unrecognized_label_warns_and_moves_on
                (host := host simple_offers) settings 2 [] 0%nat 0%nat 2%nat
                2%nat (seq 100 3) 102%nat 202%nat
                [Log DEBUG "bypass mature content block" [];
                 Until 20 visibility_of_element_located MATURE_CONTENT;
                 Log DEBUG "no mature content block to bypass" []]
                [Log DEBUG "find the purchase button" [];
                 Until 20 visibility_of_element_located PURCHASE_CTA_BUTTON;
                 Log DEBUG "extract game title" [];
                 FindElement GAME_TITLE;
                 Log DEBUG "extract game price" [];
                 FindElement GAME_PRICE;
                 Log DEBUG "extract sales end date" [];
                 FindElement SALE_ENDS]
                "D" "$9.99" "Sale ends 11/29/2019 at 3:59 PM"
                eq_refl eq_refl eq_refl eq_refl
                ltac:(vm_compute; discriminate)
                ltac:(vm_compute; discriminate)
                ltac:(vm_compute; discriminate)) as H.
  exact (proj1 (proj2 (proj2 H))).
Defined.

(** The store with no label SEE EDITIONS cooperates along its three
    rounds. *)
Lemma simple_offers_cooperate :
  cooperates (host := host simple_offers) settings 0 3 0%nat.
Proof.
  do 3 (eapply (cooperates_next (host := host simple_offers) settings);
        [reflexivity | reflexivity | reflexivity | reflexivity
        | vm_compute; discriminate | reflexivity |]).
  apply cooperates_done.
Defined.

(** The store with no label SEE EDITIONS: three offers, three rounds, three
    actions. *)
Lemma enumerator_one_action_per_offer_witness :
  poll_all (Host := host simple_offers) 20 FREE_NOW 0%nat
    = ([100; 101; 102]%nat, 0%nat) /\
  exists w' t,
    enumerate (host := host simple_offers) settings 0%nat
      = (Done false, w',
         [Log DEBUG "wait for and get all free games available" [];
          Until 20 visibility_of_all_elements_located FREE_NOW;
          Log DEBUG "close the cookies banner" [];
          Until 20 element_to_be_clickable COOKIES_BANNER;
          Click 820%nat]
         ++ t ++ [Log INFO "all games processed" []]) /\
    length (actions t) = 3%nat.
Proof.
  split; [reflexivity|].
  destruct (enumerator_one_action_per_offer (host := host simple_offers)
              settings 0%nat 0%nat 0%nat
              [100; 101; 102]%nat 820%nat eq_refl ltac:(discriminate) eq_refl
              simple_offers_cooperate)
    as (_ & w' & t & Hrun & _ & _ & Hactions).
  exists w', t. split; [exact Hrun | exact Hactions].
Defined.



End Runs.

(** * Further properties *)

Section OutcomeLaws.

Context {W : Type} {host : Host W}.

Lemma raises_ret {A} P (a : A) : raises (W := W) P (ret a).
Proof. intros w e. discriminate. Qed.

Lemma raises_raise {A} (P : exn -> bool) e :
  P e = true -> raises (W := W) (A := A) P (raise e).
Proof. intros H w e' [= <-]. exact H. Qed.

Lemma raises_bind {A B} P (m : M W A) (k : A -> M W B) :
  raises P m -> (forall a, raises P (k a)) -> raises P (bind m k).
Proof.
  intros Hm Hk w e. unfold bind. specialize (Hm w).
  destruct (m w) as [[[a|e1] w1] t1]; simpl in *.
  - specialize (Hk a w1 e). by destruct (k a w1) as [[o w2] t2].
  - intros [= <-]. by apply Hm.
Qed.

Lemma raises_try {A} (P : exn -> bool) (m : M W A) classes handler :
  raises (fun e => P e || existsb (isinstance e) classes) m ->
  (forall e, raises P (handler e)) ->
  raises P (try_except m classes handler).
Proof.
  intros Hm Hh w e. unfold try_except. specialize (Hm w).
  destruct (m w) as [[[a|e1] w1] t1]; simpl in *; [discriminate|].
  destruct (existsb (isinstance e1) classes) eqn:Hc.
  - specialize (Hh e1 w1 e). by destruct (handler e1 w1) as [[o w2] t2].
  - intros [= <-]. specialize (Hm e1 eq_refl). rewrite Hc in Hm.
    by rewrite orb_false_r in Hm.
Qed.

Lemma raises_try2 {A} (P : exn -> bool) (m : M W A) c1 h1 c2 h2 :
  raises (fun e => P e || existsb (isinstance e) c1
                   || existsb (isinstance e) c2) m ->
  (forall e, raises P (h1 e)) -> (forall e, raises P (h2 e)) ->
  raises P (try_except2 m c1 h1 c2 h2).
Proof.
  intros Hm H1 H2 w e. unfold try_except2. specialize (Hm w).
  destruct (m w) as [[[a|e1] w1] t1]; simpl in *; [discriminate|].
  destruct (existsb (isinstance e1) c1) eqn:Hc1.
  - specialize (H1 e1 w1 e). by destruct (h1 e1 w1) as [[o w2] t2].
  - destruct (existsb (isinstance e1) c2) eqn:Hc2.
    + specialize (H2 e1 w1 e). by destruct (h2 e1 w1) as [[o w2] t2].
    + intros [= <-]. specialize (Hm e1 eq_refl). rewrite Hc1, Hc2 in Hm.
      by rewrite !orb_false_r in Hm.
Qed.

Lemma raises_for_each {A} P (l : list A) (body : A -> M W unit) :
  (forall x, raises P (body x)) -> raises P (for_each l body).
Proof.
  intros Hb. induction l as [|x rest IH]; simpl.
  - apply raises_ret.
  - apply raises_bind; [apply Hb | intros _; exact IH].
Qed.

Lemma raises_comprehension {A B} P (f : A -> M W B) (l : list A) :
  (forall x, raises P (f x)) -> raises P (comprehension f l).
Proof.
  intros Hf. induction l as [|x rest IH]; simpl.
  - apply raises_ret.
  - apply raises_bind; [apply Hf | intros y].
    apply raises_bind; [exact IH | intros ys; apply raises_ret].
Qed.

Lemma raises_emit P ev : raises (W := W) P (emit ev).
Proof. intros w e. discriminate. Qed.

Lemma raises_perform P ev : raises P (perform ev).
Proof. intros w e. discriminate. Qed.

Lemma raises_text_of P el : raises P (text_of el).
Proof. intros w e. discriminate. Qed.

Lemma raises_now (P : exn -> bool) secret :
  P BinasciiError = true -> raises P (now secret).
Proof.
  intros H w e. unfold now. destruct (totp_now secret w); simpl;
    [discriminate|].
  by intros [= <-].
Qed.

Lemma raises_until (P : exn -> bool) cfg c l :
  P TimeoutException = true -> raises P (until cfg c l).
Proof.
  intros H w e. unfold until.
  destruct (poll (TIMEOUT cfg) c l w) as [[el|] w1]; simpl; [discriminate|].
  by intros [= <-].
Qed.

Lemma raises_until_all (P : exn -> bool) timeout l :
  P TimeoutException = true -> raises P (until_all timeout l).
Proof.
  intros H w e. unfold until_all.
  destruct (poll_all timeout l w) as [[|el els] w1]; simpl; [|discriminate].
  by intros [= <-].
Qed.

Lemma raises_find (P : exn -> bool) l :
  P NoSuchElementException = true -> raises P (find l).
Proof.
  intros H w e. unfold find.
  destruct (find_element l w) as [[el|] w1]; simpl; [discriminate|].
  by intros [= <-].
Qed.

Lemma raises_add_cookie (P : exn -> bool) name value domain :
  P WebDriverException = true -> raises P (add_cookie_call name value domain).
Proof.
  intros H w e. unfold add_cookie_call.
  destruct (add_cookie name value domain w) as [[|] w1]; simpl;
    [discriminate|].
  by intros [= <-].
Qed.

Lemma raises_json_load (P : exn -> bool) :
  P FileNotFoundError = true -> P JSONDecodeError = true ->
  raises P json_load_cookies.
Proof.
  intros H1 H2 w e. unfold json_load_cookies.
  destruct (cookies_file w); simpl; [| |discriminate|discriminate];
    by intros [= <-].
Qed.

End OutcomeLaws.

Ltac raises_walk :=
  repeat
    (intros;
     lazymatch goal with
     | |- raises _ (bind _ _) => apply raises_bind
     | |- raises _ (try_except _ _ _) => apply raises_try
     | |- raises _ (try_except2 _ _ _ _ _) => apply raises_try2
     | |- raises _ (for_each _ _) => apply raises_for_each
     | |- raises _ (for_range _ _) => apply raises_for_each
     | |- raises _ (comprehension _ _) => apply raises_comprehension
     | |- raises _ (ret _) => apply raises_ret
     | |- raises _ (raise _) => apply raises_raise; reflexivity
     | |- raises _ (exit _) => apply raises_raise; reflexivity
     | |- raises _ (log _ _ _) => apply raises_emit
     | |- raises _ (emit _) => apply raises_emit
     | |- raises _ (perform _) => apply raises_perform
     | |- raises _ (click _) => apply raises_perform
     | |- raises _ (send_keys _ _) => apply raises_perform
     | |- raises _ (until _ _ _) => apply raises_until; reflexivity
     | |- raises _ (until_all _ _) => apply raises_until_all; reflexivity
     | |- raises _ (find _) => apply raises_find; reflexivity
     | |- raises _ (text_of _) => apply raises_text_of
     | |- raises _ (now _) => apply raises_now; reflexivity
     | |- raises _ (add_cookie_call _ _ _) =>
         apply raises_add_cookie; reflexivity
     | |- raises _ json_load_cookies => apply raises_json_load; reflexivity
     | |- raises _ (if ?b then _ else _) => destruct b
     | |- raises _ (match ?x with _ => _ end) => destruct x
     | |- raises _ ?m => let h := head_of m in unfold h
     end).

Section Extras.

Context {W : Type} {host : Host W}.

Lemma enumerate_raises cfg :
  raises (one_of [IndexError; TypeError]) (enumerate cfg).
Proof. raises_walk. Qed.

(** ** The cookies file *)

Lemma getkey_value d key (w : W) :
  getkey d key w
    = match value_of d key with
      | Some v => (Done v, w, [])
      | None => (Raised KeyError, w, [])
      end.
Proof.
  unfold getkey, value_of.
  by destruct (List.find (fun kv => String.eqb (fst kv) key) d).
Qed.

Lemma add_cookie_entry (i : list (string * string)) (w : W) :
  exists w',
    try_except
      (name <- getfield (Some i) "name" ;;
       value <- getfield (Some i) "value" ;;
       domain <- getfield (Some i) "domain" ;;
       add_cookie_call name value domain)
      [WebDriverException; KeyError]
      (fun _ => ret tt) w
    = (Done tt, w', match cookie_of i with Some ev => [ev] | None => [] end).
Proof.
  unfold try_except, bind, cookie_of, getfield. rewrite getkey_value.
  destruct (value_of i "name") as [name|]; simpl; [|by exists w].
  rewrite getkey_value.
  destruct (value_of i "value") as [value|]; simpl; [|by exists w].
  rewrite getkey_value.
  destruct (value_of i "domain") as [domain|]; simpl; [|by exists w].
  unfold add_cookie_call.
  destruct (add_cookie name value domain w) as [[|] w1]; simpl; by exists w1.
Qed.

(** The loop over the values of the file: the objects [l], then the values
    [rest]. *)
Lemma add_cookies_in_order (l : list (list (string * string))) rest (w : W) :
  exists w1,
    for_each (map Some l ++ rest) (fun i =>
      try_except
        (name <- getfield i "name" ;;
         value <- getfield i "value" ;;
         domain <- getfield i "domain" ;;
         add_cookie_call name value domain)
        [WebDriverException; KeyError]
        (fun _ => ret tt)) w
    = prepend (omap cookie_of l)
        (for_each rest (fun i =>
           try_except
             (name <- getfield i "name" ;;
              value <- getfield i "value" ;;
              domain <- getfield i "domain" ;;
              add_cookie_call name value domain)
             [WebDriverException; KeyError]
             (fun _ => ret tt)) w1).
Proof.
  revert w. induction l as [|i l IH]; intros w.
  - exists w. simpl. by rewrite prepend_nil.
  - destruct (add_cookie_entry i w) as [w1 H1].
    destruct (IH w1) as [w' H'].
    exists w'. cbn [for_each map app].
    rewrite (bind_done _ _ _ _ _ _ H1), H'. cbn [omap list_omap].
    rewrite prepend_prepend. by destruct (cookie_of i).
Qed.


(** X2.  When the cookies file holds a list of entries, every entry that
    has the three keys name, value and domain is passed to [add_cookie], in
    the order of the file; an entry with a key missing is skipped, a cookie
    the driver refuses does not stop the later ones, and after the last
    entry the page is refreshed. *)
Theorem load_cookies_adds_the_complete_entries (w : W)
    (l : list (list (string * string))) :
  cookies_file w = Entries l ->
  exists w',
    load_cookies w
      = (Done tt, command Refresh w',
         [Log DEBUG "trying to load cookies" []; OpenFile "cookies.json"]
         ++ omap cookie_of l
         ++ [Log DEBUG "all cookies loaded, refreshing the page" [];
             Refresh]).
Proof.
  intros H. destruct (add_cookies_in_order l [] w) as [w' Hloop]. exists w'.
  rewrite app_nil_r in Hloop.
  unfold load_cookies. rewrite bind_log.
  unfold try_except2, bind at 1, json_load_cookies. rewrite H.
  unfold bind at 1. rewrite Hloop.
  unfold for_each, bind, log, emit, perform, ret. simpl.
  by rewrite <- ?app_assoc, ?app_nil_r.
Qed.

(** ** The configuration *)

Lemma getenv_int_bad env name default :
  getenv_int env name default = None <-> bad_integer env name.
Proof.
  unfold getenv_int, getenv_or, bad_integer.
  destruct (env !! name) as [s|]; [| split; [done | by intros (s & [=] & _)]].
  destruct (String.eqb_spec s "") as [->|Hne].
  - split; [done | by intros (s & [= <-] & Hs & _)].
  - split.
    + intros Hs. by exists s.
    + by intros (s' & [= <-] & _ & Hs).
Qed.

(** X3.  [read_env_variables] fails exactly when TIMEOUT or SLEEPTIME holds
    a non-empty string that [int] rejects, and then with a [ValueError]. *)
Theorem read_env_variables_fails_on_bad_integers
    (env : gmap string string) :
  (forall e, read_env_variables env = Raised e -> e = ValueError) /\
  (read_env_variables env = Raised ValueError <->
   bad_integer env "TIMEOUT" \/ bad_integer env "SLEEPTIME").
Proof.
  unfold read_env_variables.
  pose proof (getenv_int_bad env "TIMEOUT" 20) as Ht.
  pose proof (getenv_int_bad env "SLEEPTIME" (-1)) as Hs.
  destruct (getenv_int env "TIMEOUT" 20) as [timeout|].
  - destruct (getenv_int env "SLEEPTIME" (-1)) as [sleeptime|].
    + split; [done|]. split; [done|].
      intros [H|H]; [by apply Ht in H | by apply Hs in H].
    + split; [by intros e [= <-]|]. split; [|done].
      intros _. right. by apply Hs.
  - split; [by intros e [= <-]|]. split; [|done].
    intros _. left. by apply Ht.
Qed.

(** X4.  In the configuration that [read_env_variables] returns an empty
    variable counts as an unset one: TIMEOUT is then 20, SLEEPTIME -1, the
    email and the password empty, and no one-time password is configured; a non-empty TIMEOUT or SLEEPTIME is what [int] reads.
    DEBUG is the exception: it is on as soon as the variable is set, even
    to the empty string. *)
Theorem read_env_variables_defaults (env : gmap string string)
    (cfg : config) :
  read_env_variables env = Done cfg ->
  let unset name := env !! name = None \/ env !! name = Some "" in
  (unset "TIMEOUT" -> TIMEOUT cfg = 20) /\
  (forall s, env !! "TIMEOUT" = Some s -> s <> "" ->
     int_of_str s = Some (TIMEOUT cfg)) /\
  (unset "SLEEPTIME" -> SLEEPTIME cfg = -1) /\
  (forall s, env !! "SLEEPTIME" = Some s -> s <> "" ->
     int_of_str s = Some (SLEEPTIME cfg)) /\
  EMAIL cfg = default "" (env !! "EMAIL") /\
  PASSWORD cfg = default "" (env !! "PASSWORD") /\
  (TOTP cfg = None <-> unset "TOTP") /\
  (DEBUG_ cfg = true <-> is_Some (env !! "DEBUG")).
Proof.
  intros Hcfg unset. unfold read_env_variables in Hcfg.
  destruct (getenv_int env "TIMEOUT" 20) as [timeout|] eqn:Ht; [|done].
  destruct (getenv_int env "SLEEPTIME" (-1)) as [sleeptime|] eqn:Hs; [|done].
  injection Hcfg as <-. simpl. subst unset. simpl.
  unfold getenv_int, getenv_or in *.
  repeat split.
  - intros [H|H]; rewrite H in Ht; by injection Ht.
  - intros s H Hne. rewrite H in Ht.
    by destruct (String.eqb_spec s "").
  - intros [H|H]; rewrite H in Hs; by injection Hs.
  - intros s H Hne. rewrite H in Hs.
    by destruct (String.eqb_spec s "").
  - destruct (env !! "EMAIL") as [s|]; [|done].
    by destruct (String.eqb_spec s "") as [->|].
  - destruct (env !! "PASSWORD") as [s|]; [|done].
    by destruct (String.eqb_spec s "") as [->|].
  - destruct (env !! "TOTP") as [s|]; [|by left].
    destruct (String.eqb_spec s "") as [->|]; [by right | done].
  - intros [[=]|[= ->]].
    + destruct (env !! "TOTP") as [s|] eqn:E; [done|done].
    + reflexivity.
  - intros H. by apply bool_decide_eq_true_1 in H.
  - intros H. by apply bool_decide_eq_true_2.
Qed.

Lemma credentials_read (env : gmap string string) (cfg : config) :
  read_env_variables env = Done cfg ->
  EMAIL cfg = default "" (env !! "EMAIL") /\
  PASSWORD cfg = default "" (env !! "PASSWORD").
Proof.
  intros Hcfg. unfold read_env_variables in Hcfg.
  destruct (getenv_int env "TIMEOUT" 20) as [timeout|]; [|done].
  destruct (getenv_int env "SLEEPTIME" (-1)) as [sleeptime|]; [|done].
  injection Hcfg as <-. simpl. unfold getenv_or. split.
  - destruct (env !! "EMAIL") as [s|]; [|done].
    by destruct (String.eqb_spec s "") as [->|].
  - destruct (env !! "PASSWORD") as [s|]; [|done].
    by destruct (String.eqb_spec s "") as [->|].
Qed.

(** X5.  With the email or the password unset or empty, [main], once
    [setLevel] has taken the log level, prints "credentials missing" and
    returns: no browser is opened and no cycle runs, whatever SLEEPTIME is.
    A log level that [setLevel] rejects ends [main] with the exception of
    [setLevel] before the credentials are looked at. *)
Theorem main_without_credentials (env : gmap string string) (cfg : config)
    (fuel : nat) (w : W) :
  read_env_variables env = Done cfg ->
  default "" (env !! "EMAIL") = "" \/ default "" (env !! "PASSWORD") = "" ->
  main env fuel w
    = match set_level (LOGLEVEL cfg) with
      | None =>
          (Done (Some tt), w,
           [BasicConfig ERROR;
            SetLevel (LOGLEVEL cfg) "INFO";
            Stdout "credentials missing"])
      | Some e =>
          (Raised e, w, [BasicConfig ERROR; SetLevel (LOGLEVEL cfg) "INFO"])
      end.
Proof.
  intros Hcfg Hmissing.
  destruct (credentials_read env cfg Hcfg) as [He Hp].
  unfold main. rewrite Hcfg, bind_emit.
  unfold bind at 1, set_logger_level.
  destruct (set_level (LOGLEVEL cfg)) as [e|]; [reflexivity|].
  rewrite He, Hp.
  destruct Hmissing as [-> | ->]; simpl; [reflexivity|].
  by rewrite orb_true_r.
Qed.

(** ** What a cycle can end with *)

Lemma one_of_cases l e :
  one_of l e = true -> In e l.
Proof.
  unfold one_of. intros (x & Hx & He)%existsb_exists.
  assert (e = x) as ->; [|exact Hx].
  destruct e, x; try discriminate; try reflexivity.
  by apply Z.eqb_eq in He as ->.
Qed.

Lemma execute_parts cfg (w : W) :
  execute cfg w
    = (browser_start cfg ;; authenticate cfg ;; finish_cycle cfg) w.
Proof.
  unfold execute, browser_start, authenticate, finish_cycle, open_browser.
  destruct (DEBUG_ cfg);
    repeat (rewrite bind_assoc || rewrite bind_perform); reflexivity.
Qed.

(** X6.  The timeouts of the waits and the missing elements of the
    lookups do not leave the guarded part of a cycle: the handler of the
    cycle catches them.  The only exceptions [enumerate] ends with are the
    [IndexError] of a subscript and the [TypeError] of the editions loop. *)
Theorem only_index_and_type_errors_escape_the_enumeration (cfg : config)
    (w : W) (e : exn) :
  fst (fst (enumerate cfg w)) = Raised e ->
  e = IndexError \/ e = TypeError.
Proof.
  intros H. apply (enumerate_raises cfg) in H.
  apply one_of_cases in H. simpl in H. intuition (subst; auto 10).
Qed.

(** X7.  With no one-time password configured, a login whose form step has
    ended, the form operated or its timeout logged, returns normally when
    neither the captcha frame nor the wrong-credentials message shows up
    within the timeout.  Both timeouts are caught and logged at debug
    level, the second as "login succeeded", and nothing is typed or clicked
    after the form. *)
Theorem login_without_one_time_password (cfg : config) (w w1 w2 w3 : W)
    (t1 : trace) :
  TOTP cfg = None ->
  login_form cfg w = (Done tt, w1, t1) ->
  poll (TIMEOUT cfg) presence_of_element_located CAPTCHA_FRAME w1
    = (None, w2) ->
  poll (TIMEOUT cfg) visibility_of_element_located INVALID_CREDENTIALS w2
    = (None, w3) ->
  login cfg w
    = (Done tt, w3,
       t1 ++ [Log DEBUG "Checking for captcha" [];
              Until (TIMEOUT cfg) presence_of_element_located CAPTCHA_FRAME;
              Log DEBUG "captcha not detected." [];
              Log DEBUG "search for wrong credentials message" [];
              Until (TIMEOUT cfg) visibility_of_element_located
                INVALID_CREDENTIALS;
              Log DEBUG "login succeeded" []]).
Proof.
  intros Hnone Hform Hcaptcha Hinvalid. unfold login.
  rewrite (bind_done _ _ _ _ _ _ Hform).
  unfold captcha_check, two_factor, credentials_check. rewrite Hnone.
  unfold try_except, bind, log, emit, until, ret. simpl.
  rewrite Hcaptcha. simpl. rewrite Hinvalid. reflexivity.
Qed.

(** X8.  When the first query of the free games times out, the cycle logs
    "no free games found" at critical level and returns at once: no offer
    is touched, and the browser the cycle opened is not closed. *)
Theorem no_free_games_returns_without_closing (cfg : config) (w w1 w2 : W)
    (t1 : trace) :
  (browser_start cfg ;; authenticate cfg) w = (Done tt, w1, t1) ->
  poll_all (TIMEOUT cfg) FREE_NOW w1 = ([], w2) ->
  execute cfg w
    = (Done tt, w2,
       t1 ++ [Log DEBUG "wait for and get all free games available" [];
              Until (TIMEOUT cfg) visibility_of_all_elements_located FREE_NOW;
              Log CRITICAL "no free games found" []]).
Proof.
  intros Hstart Hpoll. rewrite execute_parts, <- bind_assoc.
  rewrite (bind_done _ _ _ _ _ _ Hstart).
  unfold finish_cycle, enumerate, free_games, try_except, bind, log, emit,
    until_all, ret. simpl. by rewrite Hpoll.
Qed.


(** X10.  The purchase flow by the outcome of its two required waits,
    the agreement step being over.  When the primary purchase button does
    not show up the flow ends with the [TimeoutException] of the wait and
    nothing more is clicked; when the button shows up it is clicked and,
    the refund notice being dealt with, the flow ends with the
    [TimeoutException] of the wait for the confirmation when that does not
    show up, and normally, right after that wait, when it does. *)
Theorem purchase_steps_outcomes (cfg : config) (w w1 : W) (t1 : trace) :
  license_agreement cfg w = (Done tt, w1, t1) ->
  match poll (TIMEOUT cfg) visibility_of_element_located PRIMARY_BUTTON w1 with
  | (None, w2) =>
      purchase_steps cfg w
        = (Raised TimeoutException, w2,
           t1 ++ [Log DEBUG "find and click on the last purchase button" [];
                  Until (TIMEOUT cfg) visibility_of_element_located
                    PRIMARY_BUTTON])
  | (Some primary, w2) =>
      forall w3 t3,
        refund_notice cfg (command (Click primary) w2) = (Done tt, w3, t3) ->
        let before :=
          t1 ++ [Log DEBUG "find and click on the last purchase button" [];
                 Until (TIMEOUT cfg) visibility_of_element_located
                   PRIMARY_BUTTON;
                 Click primary]
          ++ t3
          ++ [Log DEBUG "Wait for confirmation that checkout is complete" [];
              Until (TIMEOUT cfg) visibility_of_element_located
                CHECKOUT_COMPLETE] in
        match poll (TIMEOUT cfg) visibility_of_element_located
                CHECKOUT_COMPLETE w3 with
        | (None, w4) =>
            purchase_steps cfg w = (Raised TimeoutException, w4, before)
        | (Some _, w4) => purchase_steps cfg w = (Done tt, w4, before)
        end
  end.
Proof.
  intros Hlicense.
  unfold purchase_steps. rewrite (bind_done _ _ _ _ _ _ Hlicense).
  unfold primary_purchase. rewrite bind_assoc, bind_log, bind_assoc.
  destruct (poll (TIMEOUT cfg) visibility_of_element_located PRIMARY_BUTTON w1)
    as [[primary|] w2] eqn:Hp; cbv beta iota.
  - intros w3 t3 Hrefund.
    rewrite (bind_done _ _ _ _ _ _ (until_found _ _ _ _ _ _ Hp)).
    rewrite bind_click.
    rewrite (bind_done _ _ _ _ _ _ Hrefund).
    unfold confirmation, bind, log, emit, ret, until. simpl.
    destruct (poll (TIMEOUT cfg) visibility_of_element_located
                CHECKOUT_COMPLETE w3) as [[el|] w4]; simpl;
      by rewrite <- ?app_assoc, ?app_nil_r.
  - rewrite (bind_raised _ _ _ _ _ _ (until_timeout _ _ _ _ _ Hp)).
    reflexivity.
Qed.

(** X11.  For an offer labelled GET the purchase button is clicked and
    the purchase flow runs; the entry "obtained ..." is written when, and
    only when, the flow has ended normally.  A failure of the flow leaves
    the round with the exception and without the entry. *)
Theorem obtained_is_logged_after_a_completed_purchase (cfg : config)
    (purchase_button : element) (name price expires : string) (w : W) :
  text purchase_button w = "GET" ->
  act_on_label cfg purchase_button name price expires w
    = match purchase_steps cfg (command (Click purchase_button) w) with
      | (Done _, w', t) =>
          (Done tt, w',
           [Log INFO FMT_OBTAINING [AStr name]; Click purchase_button]
           ++ t
           ++ [Log INFO FMT_OBTAINED [AStr name; AStr price; AStr expires]])
      | (Raised e, w', t) =>
          (Raised e, w',
           [Log INFO FMT_OBTAINING [AStr name]; Click purchase_button] ++ t)
      end.
Proof.
  intros H. rewrite (act_on_get _ _ _ _ _ _ H).
  rewrite bind_log, bind_click. unfold bind, log, emit.
  by destruct (purchase_steps cfg (command (Click purchase_button) w))
    as [[[[]|e] w'] t].
Qed.


(** X13.  When a later query of the offers yields a list too short for the
    index of the round, the subscript raises an [IndexError] before
    anything is clicked.  The loop stops there, and the handler of the
    cycle, which names the Selenium exceptions only, does not catch it. *)
Theorem short_requery_raises_index_error (cfg : config) (i : nat)
    (remaining : list nat) (w w1 : W) (games : list element) :
  poll_all (TIMEOUT cfg) FREE_NOW_DASH w = (games, w1) ->
  games <> [] ->
  (length games <= i)%nat ->
  let failure : outcome unit * W * trace :=
    (Raised IndexError, w1,
     [Log DEBUG "wait for and get all free games available" [];
      Until (TIMEOUT cfg) visibility_of_all_elements_located FREE_NOW_DASH]) in
  offer cfg i w = failure /\
  for_each (i :: remaining) (offer cfg) w = failure /\
  forall handler,
    try_except (for_each (i :: remaining) (offer cfg))
      [TimeoutException; NoSuchElementException; WebDriverException]
      handler w = failure.
Proof.
  intros Hgames Hne Hlen failure.
  assert (Hoffer : offer cfg i w = failure).
  { unfold offer. rewrite bind_log.
    destruct games as [|g gs]; [done|].
    rewrite (bind_done _ _ _ _ _ _ (until_all_found _ _ _ _ _ _ Hgames)).
    unfold getitem. by rewrite (lookup_ge_None_2 _ _ Hlen). }
  assert (Hloop : for_each (i :: remaining) (offer cfg) w = failure).
  { simpl. by rewrite (bind_raised _ _ _ _ _ _ Hoffer). }
  split; [exact Hoffer | split; [exact Hloop |]].
  intros handler. by rewrite (try_escapes _ _ _ _ _ _ _ Hloop).
Qed.

Lemma comprehension_text_of (l : list element) (w : W) :
  comprehension text_of l w = (Done (map (fun e => text e w) l), w, []).
Proof.
  induction l as [|e l IH]; [reflexivity|].
  cbn [comprehension]. rewrite bind_text_of.
  by rewrite (bind_done _ _ _ _ _ _ IH).
Qed.

(** X14.  The branch for the label SEE EDITIONS never ends normally: in
    every world it ends with the [TimeoutException] of one of its two waits
    or with the [TypeError] of the subscript, and so does the action on an
    offer that bears this label. *)
Theorem see_editions_never_returns (cfg : config)
    (purchase_button : element) (name price expires : string) (w : W) :
  (exists e w' t,
     see_editions cfg name w = (Raised e, w', t) /\
     (e = TimeoutException \/ e = TypeError)) /\
  (text purchase_button w = "SEE EDITIONS" ->
   act_on_label cfg purchase_button name price expires w
     = see_editions cfg name w).
Proof.
  split.
  - unfold see_editions. rewrite bind_log.
    destruct (poll_all (TIMEOUT cfg) EDITIONS_TITLES w) as [[|el els] w1]
      eqn:Hp.
    + rewrite (bind_raised _ _ _ _ _ _ (until_all_timeout _ _ _ _ Hp)).
      eexists _, _, _. split; [reflexivity | by left].
    + rewrite (bind_done _ _ _ _ _ _ (until_all_found _ _ _ _ _ _ Hp)).
      rewrite (bind_done _ _ _ _ _ _ (comprehension_text_of _ _)).
      unfold for_range. cbn [map length seq for_each].
      destruct (edition_never_classifies cfg name
                  (text el w1 :: map (fun e => text e w1) els) 0%nat w1)
        as (e & w2 & He & Hcases).
      rewrite (bind_raised _ _ _ _ _ _ He).
      eexists _, _, _. split; [reflexivity | exact Hcases].
  - intros H. unfold act_on_label.
    rewrite bind_text_of, H. simpl. rewrite bind_text_of, H. simpl.
    rewrite bind_text_of. by rewrite H.
Qed.

Lemma bind_prepend {A B} (m m' : M W A) (k : A -> M W B) w w' t :
  m w = prepend t (m' w') -> bind m k w = prepend t (bind m' k w').
Proof.
  intros H. unfold bind. rewrite H.
  destruct (m' w') as [[[a|e] w1] t1]; simpl; [|reflexivity].
  by rewrite prepend_prepend.
Qed.

Lemma browser_start_types_nothing cfg :
  emits (fun ev => negb (is_send_keys ev)) (browser_start cfg).
Proof. emits_walk. Qed.

Lemma finish_cycle_types_nothing cfg :
  emits (fun ev => negb (is_send_keys ev)) (finish_cycle cfg).
Proof. emits_walk. Qed.

(** X15.  [login] runs exactly when the logout control is not found.  In a
    session that is already logged in the cycle goes straight to the
    offers, and nothing is typed in the whole cycle: neither the email nor
    the password nor a code is sent. *)
Theorem login_only_when_logged_out (cfg : config) (w w1 : W) (t1 : trace) :
  browser_start cfg w = (Done tt, w1, t1) ->
  match find_element LOG_OUT w1 with
  | (Some _, w2) =>
      execute cfg w
        = prepend (t1 ++ [FindElement LOG_OUT]) (finish_cycle cfg w2) /\
      forallb (fun ev => negb (is_send_keys ev)) (snd (execute cfg w)) = true
  | (None, w2) =>
      execute cfg w
        = prepend (t1 ++ [FindElement LOG_OUT])
            ((login cfg ;; finish_cycle cfg) w2)
  end.
Proof.
  intros Hstart. rewrite execute_parts.
  rewrite (bind_done _ _ _ _ _ _ Hstart).
  destruct (find_element LOG_OUT w1) as [[el|] w2] eqn:Hfind.
  - assert (Hauth : authenticate cfg w1
              = (Done tt, w2, [FindElement LOG_OUT])).
    { unfold authenticate, try_except, bind, find, ret. by rewrite Hfind. }
    rewrite (bind_done _ _ _ _ _ _ Hauth), prepend_prepend.
    split; [reflexivity|].
    pose proof (browser_start_types_nothing cfg w) as H1.
    pose proof (finish_cycle_types_nothing cfg w2) as H2.
    rewrite Hstart in H1. simpl in H1.
    destruct (finish_cycle cfg w2) as [[o w3] t3]. simpl in *.
    by rewrite !forallb_app, H1, H2.
  - assert (Hauth : authenticate cfg w1
              = prepend [FindElement LOG_OUT] (login cfg w2)).
    { unfold authenticate, try_except, bind, find, ret. by rewrite Hfind. }
    rewrite (bind_prepend _ _ _ _ _ _ Hauth). by rewrite prepend_prepend.
Qed.

(** X16.  When a round of the loop ends with an exception, the rounds that
    remain do not run and "all games processed" is not logged.  A Selenium
    exception is logged with its traceback at critical level, the browser
    is closed and the cycle returns normally; any other exception leaves
    the cycle as it is, with the browser open. *)
Theorem a_failing_round_ends_the_enumeration (cfg : config) (w w1 w2 w3 : W)
    (games : list element) (t1 t2 t3 : trace) (e : exn) :
  free_games cfg w = (Done (Some games), w1, t1) ->
  cookies_banner cfg w1 = (Done tt, w2, t2) ->
  for_range (length games) (offer cfg) w2 = (Raised e, w3, t3) ->
  finish_cycle cfg w
    = if caught_by_the_cycle e then
        (Done tt, command Close w3,
         t1 ++ t2 ++ t3 ++ [Log CRITICAL "%s" [ATraceback e]; Close])
      else (Raised e, w3, t1 ++ t2 ++ t3).
Proof.
  intros Hfree Hbanner Hloop.
  assert (Hbody :
    (found <- free_games cfg ;;
     match found with
     | None => ret true
     | Some games_found =>
         cookies_banner cfg ;;
         for_range (length games_found) (offer cfg) ;;
         log INFO "all games processed" [] ;;
         ret false
     end) w = (Raised e, w3, t1 ++ t2 ++ t3)).
  { rewrite (bind_done _ _ _ _ _ _ Hfree), (bind_done _ _ _ _ _ _ Hbanner).
    by rewrite (bind_raised _ _ _ _ _ _ Hloop). }
  unfold finish_cycle, caught_by_the_cycle.
  destruct (existsb (isinstance e)
              [TimeoutException; NoSuchElementException; WebDriverException])
    eqn:Hc.
  - assert (Henum : enumerate cfg w
              = (Done false, w3,
                 (t1 ++ t2 ++ t3) ++ [Log CRITICAL "%s" [ATraceback e]])).
    { unfold enumerate. by rewrite (try_caught _ _ _ _ _ _ _ Hbody Hc). }
    rewrite (bind_done _ _ _ _ _ _ Henum).
    unfold perform. simpl. by rewrite <- !app_assoc.
  - assert (Henum : enumerate cfg w = (Raised e, w3, t1 ++ t2 ++ t3)).
    { unfold enumerate. by rewrite (try_escapes _ _ _ _ _ _ _ Hbody Hc). }
    by rewrite (bind_raised _ _ _ _ _ _ Henum).
Qed.

(** X17.  A round of the loop that ends normally has started with a fresh
    query of the offers and a click on one of them, and has ended with the
    return to the free-games page, whichever branch it took. *)
Theorem a_completed_round_returns_to_the_free_games_page (cfg : config)
    (i : nat) (w w' : W) (t : trace) :
  offer cfg i w = (Done tt, w', t) ->
  exists el middle w0,
    t = [Log DEBUG "wait for and get all free games available" [];
         Until (TIMEOUT cfg) visibility_of_all_elements_located FREE_NOW_DASH;
         Click el]
        ++ middle ++ [Get FREE_GAMES_PAGE_URL] /\
    (fst (poll_all (TIMEOUT cfg) FREE_NOW_DASH w)) !! i = Some el /\
    w' = command (Get FREE_GAMES_PAGE_URL) w0.
Proof.
  unfold offer. rewrite bind_log.
  destruct (poll_all (TIMEOUT cfg) FREE_NOW_DASH w) as [[|g gs] w1] eqn:Hp.
  { by rewrite (bind_raised _ _ _ _ _ _ (until_all_timeout _ _ _ _ Hp)). }
  rewrite (bind_done _ _ _ _ _ _ (until_all_found _ _ _ _ _ _ Hp)).
  unfold getitem. simpl fst.
  destruct ((g :: gs) !! i) as [el|] eqn:Hel; [|discriminate].
  rewrite bind_ret, bind_click. rewrite !prepend_prepend.
  destruct ((mature_content cfg;;
             read <- read_offer cfg;;
             (let '(purchase_button, name, price, expires) := read in
              act_on_label cfg purchase_button name price expires;;
              perform (Get FREE_GAMES_PAGE_URL)))
              (command (Click el) w1)) as [[o w2] t2] eqn:Hrest.
  simpl. intros [= -> -> <-].
  apply bind_done_inv in Hrest as ([] & wa & ta & tb & _ & Hrest & ->).
  apply bind_done_inv in Hrest
    as ([[[pb name] price] expires] & wb & tc & td & _ & Hrest & ->).
  apply bind_done_inv in Hrest as ([] & wc & te & tf & _ & Hrest & ->).
  unfold perform in Hrest. injection Hrest as <- <-.
  exists el, (ta ++ tc ++ te), wc. split; [|done].
  simpl. by rewrite <- !app_assoc.
Qed.

End Extras.

(** ** Further runs on the scripted store *)

Section FurtherRuns.

Import Store Cases.


(** Of the three entries of the file the second, which has no domain, is
    skipped. *)
Lemma load_cookies_adds_the_complete_entries_witness :
  exists w',
    load_cookies (host := host with_cookies) 0%nat
      = (Done tt, w',
         [Log DEBUG "trying to load cookies" [];
          OpenFile "cookies.json";
          AddCookie "EPIC_SSO" "abc" ".epicgames.com";
          AddCookie "EPIC_LOCALE" "en-US" ".epicgames.com";
          Log DEBUG "all cookies loaded, refreshing the page" [];
          Refresh]).
Proof.
  destruct (load_cookies_adds_the_complete_entries (host := host with_cookies)
              0%nat _ eq_refl) as [w' H].
  exists (command (Host := host with_cookies) Refresh w'). exact H.
Defined.

Lemma read_env_variables_fails_on_bad_integers_witness :
  bad_integer (host := host no_offers) environment_with_bad_timeout "TIMEOUT" /\
  read_env_variables (host := host no_offers) environment_with_bad_timeout
    = Raised ValueError.
Proof.
  assert (H : bad_integer (host := host no_offers)
                environment_with_bad_timeout "TIMEOUT").
  { exists "soon".
    split; [vm_compute; reflexivity | split; [discriminate | reflexivity]]. }
  split; [exact H|].
  apply (proj2 (read_env_variables_fails_on_bad_integers
                  (host := host no_offers) environment_with_bad_timeout)).
  left. exact H.
Defined.

Lemma read_env_variables_defaults_witness :
  read_env_variables (host := host no_offers) environment_without_password
    = Done without_password /\
  TIMEOUT without_password = 20 /\
  PASSWORD without_password
    = default "" (environment_without_password !! "PASSWORD").
Proof.
  assert (H : read_env_variables (host := host no_offers)
                environment_without_password = Done without_password)
    by (vm_compute; reflexivity).
  destruct (read_env_variables_defaults (host := host no_offers)
              environment_without_password without_password H)
    as (Htimeout & _ & _ & _ & _ & Hpassword & _ & _).
  split; [exact H|]. split; [| exact Hpassword].
  apply Htimeout. left. vm_compute. reflexivity.
Defined.

Lemma main_without_credentials_witness :
  main (host := host no_offers) environment_without_password 3 0%nat
    = (Done (Some tt), 0%nat,
       [BasicConfig ERROR; SetLevel "" "INFO"; Stdout "credentials missing"]).
Proof.
  apply (main_without_credentials (host := host no_offers)
           environment_without_password without_password 3 0%nat).
  - vm_compute. reflexivity.
  - right. vm_compute. reflexivity.
Defined.

Lemma only_index_and_type_errors_escape_the_enumeration_witness :
  fst (fst (enumerate (host := host one_with_editions) settings 0%nat))
    = Raised TypeError /\
  (TypeError = IndexError \/ TypeError = TypeError).
Proof.
  assert (H : fst (fst (enumerate (host := host one_with_editions) settings
                          0%nat)) = Raised TypeError)
    by (vm_compute; reflexivity).
  split; [exact H|].
  exact (only_index_and_type_errors_escape_the_enumeration
           (host := host one_with_editions) settings 0%nat TypeError H).
Defined.

(** The store that shows no login form, and neither a captcha nor the
    wrong-credentials message. *)
Lemma login_without_one_time_password_witness :
  login (host := host no_login_form) settings 0%nat
    = (Done tt, 0%nat,
       [Log DEBUG "find and click on login button" [];
        Until 20 element_to_be_clickable USER_MENU;
        Log CRITICAL "Unable to locate login form" []]
       ++ [Log DEBUG "Checking for captcha" [];
           Until 20 presence_of_element_located CAPTCHA_FRAME;
           Log DEBUG "captcha not detected." [];
           Log DEBUG "search for wrong credentials message" [];
           Until 20 visibility_of_element_located INVALID_CREDENTIALS;
           Log DEBUG "login succeeded" []]).
Proof.
  exact (login_without_one_time_password (host := host no_login_form)
           settings 0%nat 0%nat 0%nat 0%nat _ eq_refl eq_refl eq_refl
           eq_refl).
Defined.

Lemma no_free_games_returns_without_closing_witness :
  execute (host := host no_offers) settings 0%nat
    = (Done tt, 0%nat,
       [Chrome "/usr/bin/chromedriver"
          ["--no-sandbox"; "--disable-dev-shm-usage"; "--headless"];
        Get FREE_GAMES_PAGE_URL;
        Log DEBUG "trying to load cookies" [];
        OpenFile "cookies.json";
        Log CRITICAL "cookies file not found" [];
        FindElement LOG_OUT]
       ++ [Log DEBUG "wait for and get all free games available" [];
           Until 20 visibility_of_all_elements_located FREE_NOW;
           Log CRITICAL "no free games found" []]).
Proof.
  exact (no_free_games_returns_without_closing (host := host no_offers)
           settings 0%nat 0%nat 0%nat _ eq_refl eq_refl).
Defined.


Lemma purchase_steps_outcomes_witness :
  purchase_steps (host := host no_primary_button) settings 0%nat
    = (Raised TimeoutException, 0%nat,
       [Log DEBUG "find and accept license agreement" [];
        Until 20 visibility_of_element_located AGREE;
        Log DEBUG "no license agreement found" []]
       ++ [Log DEBUG "find and click on the last purchase button" [];
           Until 20 visibility_of_element_located PRIMARY_BUTTON]).
Proof.
  exact (purchase_steps_outcomes (host := host no_primary_button)
           settings 0%nat 0%nat _ eq_refl).
Defined.

Lemma obtained_is_logged_after_a_completed_purchase_witness :
  text (Host := host simple_offers) 201%nat 1%nat = "GET" /\
  let run :=
    act_on_label (host := host simple_offers) settings 201%nat "B" "$9.99"
      "soon" 1%nat in
  fst (fst run) = Done tt /\
  last_events 1 (snd run)
    = [Log INFO FMT_OBTAINED [AStr "B"; AStr "$9.99"; AStr "soon"]].
Proof.
  split; [reflexivity|]. cbv zeta.
  rewrite (obtained_is_logged_after_a_completed_purchase
             (host := host simple_offers) settings 201%nat "B" "$9.99" "soon"
             1%nat eq_refl).
  vm_compute. split; reflexivity.
Defined.


Lemma short_requery_raises_index_error_witness :
  poll_all (Host := host one_offer_gone) 20 FREE_NOW_DASH 0%nat
    = ([100%nat], 0%nat) /\
  offer (host := host one_offer_gone) settings 1 0%nat
    = (Raised IndexError, 0%nat,
       [Log DEBUG "wait for and get all free games available" [];
        Until 20 visibility_of_all_elements_located FREE_NOW_DASH]).
Proof.
  split; [reflexivity|].
  exact (proj1 (short_requery_raises_index_error (host := host one_offer_gone)
                  settings 1 [] 0%nat 0%nat [100%nat] eq_refl
                  ltac:(discriminate) ltac:(simpl; lia))).
Defined.

Lemma see_editions_never_returns_witness :
  text (Host := host one_with_editions) 200%nat 0%nat = "SEE EDITIONS" /\
  act_on_label (host := host one_with_editions) settings 200%nat "C" "$9.99"
    "soon" 0%nat
    = see_editions (host := host one_with_editions) settings "C" 0%nat.
Proof.
  split; [reflexivity|].
  exact (proj2 (see_editions_never_returns (host := host one_with_editions)
                  settings 200%nat "C" "$9.99" "soon" 0%nat) eq_refl).
Defined.

Lemma login_only_when_logged_out_witness :
  find_element (Host := host simple_offers) LOG_OUT 0%nat
    = (Some 890%nat, 0%nat) /\
  forallb (fun ev => negb (is_send_keys ev))
    (snd (execute (host := host simple_offers) settings 0%nat)) = true.
Proof.
  split; [reflexivity|].
  exact (proj2 (login_only_when_logged_out (host := host simple_offers)
                  settings 0%nat 0%nat _ eq_refl)).
Defined.

Lemma a_failing_round_ends_the_enumeration_witness :
  let run := finish_cycle (host := host no_primary_button) settings 0%nat in
  fst (fst run) = Done tt /\
  last_events 2 (snd run)
    = [Log CRITICAL "%s" [ATraceback TimeoutException]; Close].
Proof.
  assert (Hloop :
    for_range 2
      (offer (host := host no_primary_button) settings) 0%nat
    = (Raised TimeoutException,
       snd (fst (for_range 2
                   (offer (host := host no_primary_button) settings) 0%nat)),
       snd (for_range 2
              (offer (host := host no_primary_button) settings) 0%nat)))
    by (vm_compute; reflexivity).
  cbv zeta.
  rewrite (a_failing_round_ends_the_enumeration
             (host := host no_primary_button) settings 0%nat 0%nat 0%nat _
             [100; 101]%nat _ _ _ TimeoutException eq_refl eq_refl Hloop).
  vm_compute. split; reflexivity.
Defined.

Lemma a_completed_round_returns_to_the_free_games_page_witness :
  exists w' t el middle,
    offer (host := host simple_offers) settings 0 0%nat = (Done tt, w', t) /\
    t = [Log DEBUG "wait for and get all free games available" [];
         Until 20 visibility_of_all_elements_located FREE_NOW_DASH;
         Click el]
        ++ middle ++ [Get FREE_GAMES_PAGE_URL].
Proof.
  assert (H : exists w' t,
            offer (host := host simple_offers) settings 0 0%nat
              = (Done tt, w', t))
    by (eexists _, _; vm_compute; reflexivity).
  destruct H as (w' & t & H).
  destruct (a_completed_round_returns_to_the_free_games_page
              (host := host simple_offers) settings 0 0%nat w' t H)
    as (el & middle & w0 & Ht & _ & _).
  exists w', t, el, middle. split; [exact H | exact Ht].
Defined.

End FurtherRuns.
